(** * Sales dashboard (app.py): load, filter, aggregate, export

    A shallow embedding of the data pipeline of [app.py]:
    [load_data] (lines 16-35), the sidebar filters (lines 57-68), the KPI
    sums (lines 73-75), the three grouped sums (lines 86, 100, 114-116)
    and the CSV export (line 135).

    A pandas [DataFrame] is a header (the column labels, in order) and a
    list of labelled rows; a [Series] taken from a frame is the list of the
    cells of one column, in row order.  float64 values are idealised as
    exact decimals (no rounding), sums as exact rationals. *)

From Stdlib Require Import List String Ascii Bool ZArith QArith Lia.
From Stdlib Require Import Sorted OrderedTypeEx Qabs.
Import ListNotations.
Open Scope string_scope.
Open Scope Z_scope.

(** ** Text helpers *)

(** [s.replace(pat, repl)] for a one-character pattern ([regex=False]). *)
Fixpoint str_replace (pat : ascii) (repl : string) (s : string) : string :=
  match s with
  | EmptyString => EmptyString
  | String c r =>
      if Ascii.eqb c pat then repl ++ str_replace pat repl r
      else String c (str_replace pat repl r)
  end.

Fixpoint occurs (a : ascii) (s : string) : bool :=
  match s with
  | EmptyString => false
  | String c r => Ascii.eqb c a || occurs a r
  end.

(** The characters of [s] other than [a], in order. *)
Fixpoint without (a : ascii) (s : string) : string :=
  match s with
  | EmptyString => EmptyString
  | String c r => if Ascii.eqb c a then without a r else String c (without a r)
  end.

Definition is_space (c : ascii) : bool :=
  let n := nat_of_ascii c in
  (Nat.eqb n 32 || (Nat.leb 9 n && Nat.leb n 13))%bool.

Fixpoint lstrip (s : string) : string :=
  match s with
  | String c r => if is_space c then lstrip r else s
  | EmptyString => EmptyString
  end.

Fixpoint rstrip (s : string) : string :=
  match s with
  | EmptyString => EmptyString
  | String c r =>
      match rstrip r with
      | EmptyString => if is_space c then EmptyString else String c EmptyString
      | r' => String c r'
      end
  end.

(** [str.strip()]. *)
Definition strip (s : string) : string := rstrip (lstrip s).

(** ** Numbers *)

(** A finite decimal [mant / 10^scale]. *)
Record Decimal := mkDec { mant : Z; scale : nat }.

Definition dec_value (d : Decimal) : Q := mant d # Z.to_pos (10 ^ Z.of_nat (scale d)).

Definition digit_of (c : ascii) : option Z :=
  let n := nat_of_ascii c in
  if (Nat.leb 48 n && Nat.leb n 57)%bool then Some (Z.of_nat (n - 48)) else None.

Definition digit_char (v : Z) : ascii := ascii_of_nat (48 + Z.to_nat (v mod 10)).

(** Reads a run of decimal digits: the accumulated value, the number of
    digits read and the rest of the text. *)
Fixpoint read_digits (s : string) (acc : Z) (n : nat) : Z * nat * string :=
  match s with
  | EmptyString => (acc, n, s)
  | String c r =>
      match digit_of c with
      | Some d => read_digits r (acc * 10 + d) (S n)
      | None => (acc, n, s)
      end
  end.

Definition split_sign (s : string) : bool * string :=
  match s with
  | String "-" r => (true, r)
  | String "+" r => (false, r)
  | _ => (false, s)
  end.

Definition signed (neg : bool) (v : Z) : Z := if neg then - v else v.

(** Digits with an optional fraction, at least one digit in all. *)
Definition parse_unsigned (neg : bool) (body : string) : option Decimal :=
  let '(ip, ni, rest) := read_digits body 0 0 in
  match rest with
  | EmptyString =>
      if Nat.eqb ni 0 then None else Some (mkDec (signed neg ip) 0)
  | String "." r =>
      let '(m, nf, rest') := read_digits r ip 0 in
      match rest' with
      | EmptyString =>
          if Nat.eqb (ni + nf) 0 then None else Some (mkDec (signed neg m) nf)
      | _ => None
      end
  | _ => None
  end.

(** The text grammar of [pd.to_numeric] on strings, restricted to plain
    decimal literals: an optional sign, digits, an optional fraction.
    [None] is what [errors="coerce"] turns into NaN. *)
Definition to_numeric_str (s : string) : option Decimal :=
  let '(neg, body) := split_sign s in
  parse_unsigned neg body.

(** Exactly [n] decimal digits of [v] (the low ones). *)
Fixpoint digits_fixed (n : nat) (v : Z) : string :=
  match n with
  | O => EmptyString
  | S n' => digits_fixed n' (v / 10) ++ String (digit_char v) EmptyString
  end.

Fixpoint width_upto (fuel : nat) (v : Z) : nat :=
  match fuel with
  | O => 1%nat
  | S f => if v <? 10 then 1%nat else S (width_upto f (v / 10))
  end.

(** Number of decimal digits of [v >= 0] (one for zero). *)
Definition width (v : Z) : nat := width_upto (Z.to_nat (Z.log2 v)) v.

Definition render_decimal (d : Decimal) : string :=
  let a := Z.abs (mant d) in
  let p := 10 ^ Z.of_nat (scale d) in
  (if mant d <? 0 then "-" else "") ++
  digits_fixed (width (a / p)) (a / p) ++
  match scale d with
  | O => ""
  | S _ => "." ++ digits_fixed (scale d) (a mod p)
  end.

(** ** Dates *)

(** A [Timestamp] is a count of nanoseconds since the epoch
    (datetime64[ns]); a [Date] ([datetime.date]) a count of days. *)
Definition Timestamp := Z.
Definition Date := Z.

Definition ns_per_day : Z := 86400 * 1000000000.

(** [pd.to_datetime(d)] for a [datetime.date]: midnight of that day. *)
Definition to_datetime_date (d : Date) : Timestamp := d * ns_per_day.

(** The calendar day a timestamp falls on ([.dt.date]). *)
Definition date_of (t : Timestamp) : Date := t / ns_per_day.

(** Proleptic Gregorian (year, month, day) of a day count. *)
Definition civil_of_days (z0 : Z) : Z * Z * Z :=
  let z := z0 + 719468 in
  let era := z / 146097 in
  let doe := z - era * 146097 in
  let yoe := (doe - doe / 1460 + doe / 36524 - doe / 146096) / 365 in
  let doy := doe - (365 * yoe + yoe / 4 - yoe / 100) in
  let mp := (5 * doy + 2) / 153 in
  let d := doy - (153 * mp + 2) / 5 + 1 in
  let m := if mp <? 10 then mp + 3 else mp - 9 in
  let y := yoe + era * 400 + (if m <=? 2 then 1 else 0) in
  (y, m, d).

(** Day count of a (year, month, day). *)
Definition days_of_civil (y0 m d : Z) : Z :=
  let y := if m <=? 2 then y0 - 1 else y0 in
  let era := y / 400 in
  let yoe := y - era * 400 in
  let mp := if m <=? 2 then m + 9 else m - 3 in
  let doy := (153 * mp + 2) / 5 + d - 1 in
  let doe := yoe * 365 + yoe / 4 - yoe / 100 + doy in
  era * 146097 + doe - 719468.

(** [.dt.to_period("M").astype(str)]: the label "YYYY-MM". *)
Definition month_label (t : Timestamp) : string :=
  let '(y, m, _) := civil_of_days (date_of t) in
  digits_fixed 4 y ++ "-" ++ digits_fixed 2 m.

(** [str(Timestamp)]: "YYYY-MM-DD HH:MM:SS". *)
Definition render_timestamp (t : Timestamp) : string :=
  let '(y, m, d) := civil_of_days (date_of t) in
  let s := (t mod ns_per_day) / 1000000000 in
  digits_fixed 4 y ++ "-" ++ digits_fixed 2 m ++ "-" ++ digits_fixed 2 d ++ " " ++
  digits_fixed 2 (s / 3600) ++ ":" ++ digits_fixed 2 (s / 60 mod 60) ++ ":" ++
  digits_fixed 2 (s mod 60).

(** ** Cells, frames and errors *)

(** A cell of a frame.  [NaN] stands for every missing value (NaN, NaT,
    None). *)
Inductive Cell :=
| NaN
| Num (d : Decimal)
| Str (s : string)
| Stamp (t : Timestamp).

Inductive error :=
| KeyError (label : string)
| AttributeError
| ValueError
| TypeError
| NameError.

Inductive result (A : Type) :=
| Ok (a : A)
| Raise (e : error).
Arguments Ok {A} a.
Arguments Raise {A} e.

Definition bind {A B} (c : result A) (k : A -> result B) : result B :=
  match c with
  | Ok a => k a
  | Raise e => Raise e
  end.

Declare Scope exc_scope.
Delimit Scope exc_scope with exc.
Notation "x <- c ;; k" := (bind c (fun x => k))
  (at level 61, c at next level, right associativity) : exc_scope.
Open Scope exc_scope.

(** Applies a raising function to every element, left to right. *)
Fixpoint mapM {A B} (f : A -> result B) (l : list A) : result (list B) :=
  match l with
  | [] => Ok []
  | x :: l' => y <- f x ;; ys <- mapM f l' ;; Ok (y :: ys)
  end.

(** A row is read through column labels only. *)
Abbreviation Row := (string -> Cell) (only parsing).

Record Frame := mkFrame {
  columns : list string;          (* df.columns *)
  rows : list (nat * Row)         (* index label, cells *)
}.

Definition Series := list Cell.

Definition count_label (c : string) (df : Frame) : nat :=
  List.length (filter (String.eqb c) (columns df)).

(** [df[c]].  An absent label raises KeyError; a duplicated label selects a
    DataFrame rather than a Series, on which every use in app.py
    ([.astype(str).str], [pd.to_datetime], [.isin], [.sum], [groupby])
    raises. *)
Definition getitem (df : Frame) (c : string) : result Series :=
  match count_label c df with
  | O => Raise (KeyError c)
  | S O => Ok (map (fun r => snd r c) (rows df))
  | _ => Raise AttributeError
  end.

Definition upd (r : Row) (c : string) (v : Cell) : Row :=
  fun k => if String.eqb k c then v else r k.

Fixpoint assign_rows (rs : list (nat * Row)) (c : string) (vs : Series)
  : list (nat * Row) :=
  match rs, vs with
  | r :: rs', v :: vs' => (fst r, upd (snd r) c v) :: assign_rows rs' c vs'
  | _, _ => []
  end.

(** [df[c] = s] for a series [s] taken from [df]: an existing column is
    overwritten, a new one is appended to the header. *)
Definition setitem (df : Frame) (c : string) (s : Series) : Frame :=
  {| columns := match count_label c df with
                | O => (columns df ++ [c])%list
                | _ => columns df
                end;
     rows := assign_rows (rows df) c s |}.

Fixpoint relabel_row (old new : list string) (r : Row) (k : string) : Cell :=
  match old, new with
  | o :: old', n :: new' => if String.eqb k n then r o else relabel_row old' new' r k
  | _, _ => NaN
  end.

(** [df.columns = labels]: the columns keep their position. *)
Definition set_columns (df : Frame) (labels : list string) : Frame :=
  {| columns := labels;
     rows := map (fun r => (fst r, relabel_row (columns df) labels (snd r))) (rows df) |}.

Fixpoint select {A} (l : list A) (mask : list bool) : list A :=
  match l, mask with
  | x :: l', b :: mask' => if b then x :: select l' mask' else select l' mask'
  | _, _ => []
  end.

(** [df[mask]]: boolean indexing, the result is a new frame. *)
Definition loc_mask (df : Frame) (mask : list bool) : Frame :=
  {| columns := columns df; rows := select (rows df) mask |}.

Fixpoint and_mask (a b : list bool) : list bool :=
  match a, b with
  | x :: a', y :: b' => (x && y)%bool :: and_mask a' b'
  | _, _ => []
  end.

Definition is_na (c : Cell) : bool :=
  match c with
  | NaN => true
  | _ => false
  end.

Definition complete (cols : list string) (r : nat * Row) : bool :=
  forallb (fun c => negb (is_na (snd r c))) cols.

(** [df.dropna()]: keeps the rows without a missing cell in any column. *)
Definition dropna (df : Frame) : Frame :=
  {| columns := columns df; rows := filter (complete (columns df)) (rows df) |}.

(** ** load_data (lines 16-35) *)

(** The text grammar of [pd.to_datetime(..., dayfirst=True)] belongs to
    pandas and dateutil; the loader only depends on whether a text
    parses. *)
Class DatetimeParser := { parse_datetime : string -> option Timestamp }.

Definition astype_str (c : Cell) : string :=
  match c with
  | NaN => "nan"
  | Num d => render_decimal d
  | Str s => s
  | Stamp t => render_timestamp t
  end.

(** [.str.replace("$", "", regex=False).str.replace(",", "", regex=False)] *)
Definition clean_currency (s : string) : string :=
  str_replace "," "" (str_replace "$" "" s).

Definition clean_text_cell (c : Cell) : Cell := Str (clean_currency (astype_str c)).

(** [pd.to_numeric(..., errors="coerce")] on one cell. *)
Definition to_numeric_cell (c : Cell) : Cell :=
  match c with
  | Str s => match to_numeric_str s with
             | Some d => Num d
             | None => NaN
             end
  | Num d => Num d
  | NaN => NaN
  | Stamp t => Num (mkDec t 0)
  end.

(** [pd.to_datetime(..., dayfirst=True)] on one cell, with the default
    [errors="raise"]; a number is read as an offset from the epoch. *)
Definition to_datetime_cell `{DatetimeParser} (c : Cell) : result Cell :=
  match c with
  | NaN => Ok NaN
  | Stamp t => Ok (Stamp t)
  | Str s => match parse_datetime s with
             | Some t => Ok (Stamp t)
             | None => Raise ValueError
             end
  | Num d => Ok (Stamp (Z.quot (mant d) (10 ^ Z.of_nat (scale d))))
  end.

Definition load_data `{DatetimeParser} (raw : Frame) : result Frame :=
  let df := set_columns raw (map strip (columns raw)) in
  s <- getitem df "Unit_Price" ;;
  let df := setitem df "Unit_Price" (map clean_text_cell s) in
  s <- getitem df "Total_Sale" ;;
  let df := setitem df "Total_Sale" (map clean_text_cell s) in
  s <- getitem df "Sales_After_Discount" ;;
  let df := setitem df "Sales_After_Discount" (map clean_text_cell s) in
  s <- getitem df "Unit_Price" ;;
  let df := setitem df "Unit_Price" (map to_numeric_cell s) in
  s <- getitem df "Total_Sale" ;;
  let df := setitem df "Total_Sale" (map to_numeric_cell s) in
  s <- getitem df "Sales_After_Discount" ;;
  let df := setitem df "Sales_After_Discount" (map to_numeric_cell s) in
  s <- getitem df "Date" ;;
  d <- mapM to_datetime_cell s ;;
  let df := setitem df "Date" d in
  Ok (dropna df).

(** A reference day-first parser for texts of the form D/M/YYYY. *)
Definition valid_day (y m d : Z) : bool :=
  let '(y', m', d') := civil_of_days (days_of_civil y m d) in
  ((y' =? y) && (m' =? m) && (d' =? d))%bool.

Definition parse_dmy (s : string) : option Timestamp :=
  let '(d, nd, r1) := read_digits s 0 0 in
  match r1 with
  | String "/" r1' =>
      let '(m, nm, r2) := read_digits r1' 0 0 in
      match r2 with
      | String "/" r2' =>
          let '(y, ny, r3) := read_digits r2' 0 0 in
          match r3 with
          | EmptyString =>
              if ((0 <? Z.of_nat nd) && (0 <? Z.of_nat nm) && (Z.of_nat ny =? 4)
                  && valid_day y m d)%bool
              then Some (to_datetime_date (days_of_civil y m d))
              else None
          | _ => None
          end
      | _ => None
      end
  | _ => None
  end.

Definition dmy_parser : DatetimeParser := {| parse_datetime := parse_dmy |}.

(** ** Sidebar filters (lines 42-68) *)

(** The user's selections: the two dates of the date picker and the two
    multiselect lists. *)
Record Criteria := mkCriteria {
  start_date : Date;
  end_date : Date;
  country_filter : list string;
  product_filter : list string
}.

Definition cell_eqb (a b : Cell) : bool :=
  match a, b with
  | NaN, NaN => true
  | Num x, Num y => Qeq_bool (dec_value x) (dec_value y)
  | Str x, Str y => String.eqb x y
  | Stamp x, Stamp y => x =? y
  | _, _ => false
  end.

(** [Series.unique()]: the distinct cells, in order of first appearance. *)
Fixpoint unique_acc (s : Series) (seen : list Cell) : list Cell :=
  match s with
  | [] => rev seen
  | c :: s' =>
      if existsb (cell_eqb c) seen then unique_acc s' seen
      else unique_acc s' (c :: seen)
  end.

Definition unique (s : Series) : list Cell := unique_acc s [].

(** Least and greatest timestamp of a series, missing cells skipped. *)
Fixpoint stamp_bounds (s : Series) : result (option (Timestamp * Timestamp)) :=
  match s with
  | [] => Ok None
  | c :: s' =>
      b <- stamp_bounds s' ;;
      match c with
      | NaN => Ok b
      | Stamp t => Ok (match b with
                       | None => Some (t, t)
                       | Some (lo, hi) => Some (Z.min t lo, Z.max t hi)
                       end)
      | _ => Raise TypeError
      end
  end.

(** Lines 42-55: what the three widgets are built from. *)
Definition sidebar (df : Frame)
  : result (option (Timestamp * Timestamp) * list Cell * list Cell) :=
  d <- getitem df "Date" ;;
  b <- stamp_bounds d ;;
  c <- getitem df "Country" ;;
  p <- getitem df "Product" ;;
  Ok (b, unique c, unique p).

(** [series >= ts] and [series <= ts] against a Timestamp: a missing cell
    compares false, text and numbers cannot be compared. *)
Definition ge_cell (ts : Timestamp) (c : Cell) : result bool :=
  match c with
  | Stamp t => Ok (ts <=? t)
  | NaN => Ok false
  | _ => Raise TypeError
  end.

Definition le_cell (ts : Timestamp) (c : Cell) : result bool :=
  match c with
  | Stamp t => Ok (t <=? ts)
  | NaN => Ok false
  | _ => Raise TypeError
  end.

(** Lines 59-62. *)
Definition date_filter (f : Frame) (cr : Criteria) : result Frame :=
  d1 <- getitem f "Date" ;;
  ge <- mapM (ge_cell (to_datetime_date (start_date cr))) d1 ;;
  d2 <- getitem f "Date" ;;
  le <- mapM (le_cell (to_datetime_date (end_date cr))) d2 ;;
  Ok (loc_mask f (and_mask ge le)).

(** [Series.isin(values)] on one cell. *)
Definition isin (values : list string) (c : Cell) : bool :=
  match c with
  | Str s => existsb (String.eqb s) values
  | _ => false
  end.

(** [f[f[col].isin(values)]] (lines 65 and 68). *)
Definition isin_filter (f : Frame) (col : string) (values : list string)
  : result Frame :=
  s <- getitem f col ;;
  Ok (loc_mask f (map (isin values) s)).

(** Truth value of a Python list. *)
Definition truthy {A} (l : list A) : bool :=
  match l with
  | [] => false
  | _ => true
  end.

(** Lines 57-68 as a function of the loaded frame and the selections. *)
Definition filter_view (df : Frame) (cr : Criteria) : result Frame :=
  let filtered_df := df in
  filtered_df <- date_filter filtered_df cr ;;
  filtered_df <- (if truthy (country_filter cr)
                  then isin_filter filtered_df "Country" (country_filter cr)
                  else Ok filtered_df) ;;
  filtered_df <- (if truthy (product_filter cr)
                  then isin_filter filtered_df "Product" (product_filter cr)
                  else Ok filtered_df) ;;
  Ok filtered_df.

(** ** Aggregates (lines 73-116) *)

(** [Series.sum()]: missing cells are skipped, the empty sum is zero. *)
Fixpoint sum_series (s : Series) : result Q :=
  match s with
  | [] => Ok 0%Q
  | c :: s' =>
      match c with
      | NaN => sum_series s'
      | Num d => t <- sum_series s' ;; Ok (dec_value d + t)%Q
      | _ => Raise TypeError
      end
  end.

Definition column_sum (f : Frame) (col : string) : result Q :=
  s <- getitem f col ;; sum_series s.

(** Order of group keys: numbers before text. *)
Definition cell_compare (a b : Cell) : comparison :=
  match a, b with
  | NaN, NaN => Eq
  | NaN, _ => Lt
  | _, NaN => Gt
  | Num x, Num y => Qcompare (dec_value x) (dec_value y)
  | Num _, _ => Lt
  | _, Num _ => Gt
  | Str x, Str y => String.compare x y
  | Str _, _ => Lt
  | _, Str _ => Gt
  | Stamp x, Stamp y => Z.compare x y
  end.

(** Adds [v] to the group of key [k], groups kept sorted by key. *)
Fixpoint insert_group (k : Cell) (v : Q) (g : list (Cell * Q)) : list (Cell * Q) :=
  match g with
  | [] => [(k, v)]
  | (k', v') :: g' =>
      match cell_compare k k' with
      | Eq => (k', (v' + v)%Q) :: g'
      | Lt => (k, v) :: g
      | Gt => (k', v') :: insert_group k v g'
      end
  end.

(** Groups the (key, value) pairs in row order; a row with a missing key
    belongs to no group, a missing value adds nothing to its group. *)
Fixpoint group_sums (keys vals : Series) (acc : list (Cell * Q))
  : result (list (Cell * Q)) :=
  match keys, vals with
  | k :: keys', v :: vals' =>
      match k with
      | NaN => group_sums keys' vals' acc
      | _ =>
          match v with
          | Num d => group_sums keys' vals' (insert_group k (dec_value d) acc)
          | NaN => group_sums keys' vals' (insert_group k 0%Q acc)
          | _ => Raise TypeError
          end
      end
  | _, _ => Ok acc
  end.

(** [f.groupby(key)[val].sum().reset_index()] *)
Definition groupby_sum (f : Frame) (key val : string) : result (list (Cell * Q)) :=
  k <- getitem f key ;;
  v <- getitem f val ;;
  group_sums k v [].

(** [.dt.to_period("M").astype(str)] on one cell. *)
Definition month_cell (c : Cell) : result Cell :=
  match c with
  | Stamp t => Ok (Str (month_label t))
  | NaN => Ok (Str "NaT")
  | _ => Raise AttributeError
  end.

(** The frame after line 114, [f["Month"] = ...]. *)
Definition add_month (f : Frame) : result Frame :=
  d <- getitem f "Date" ;;
  m <- mapM month_cell d ;;
  Ok (setitem f "Month" m).

Record AggregateResult := mkAggregate {
  total_sales : Q;
  total_after_discount : Q;
  total_units : Q;
  country_sales : list (Cell * Q);
  product_sales : list (Cell * Q);
  monthly_sales : list (Cell * Q)
}.

(** [int(x)]: truncation toward zero. *)
Definition int_of (x : Q) : Z := Z.quot (Qnum x) (Zpos (Qden x)).

(** Lines 73-116 on a view; the second component is the view after line
    114 has added its Month column. *)
Definition summarize (v : Frame) : result (AggregateResult * Frame) :=
  ts <- column_sum v "Total_Sale" ;;
  ta <- column_sum v "Sales_After_Discount" ;;
  tu <- column_sum v "Units_Sold" ;;
  cs <- groupby_sum v "Country" "Sales_After_Discount" ;;
  ps <- groupby_sum v "Product" "Sales_After_Discount" ;;
  v' <- add_month v ;;
  ms <- groupby_sum v' "Month" "Sales_After_Discount" ;;
  Ok (mkAggregate ts ta tu cs ps ms, v').

Definition sum_groups (g : list (Cell * Q)) : Q :=
  fold_right (fun kv t => (snd kv + t)%Q) 0%Q g.

(** ** Export (line 135) *)

Definition dquote : ascii := ascii_of_nat 34.
Definition newline : ascii := ascii_of_nat 10.
Definition creturn : ascii := ascii_of_nat 13.

(** Minimal quoting of a CSV field. *)
Definition csv_field (s : string) : string :=
  if (occurs "," s || occurs dquote s || occurs newline s || occurs creturn s)%bool
  then String dquote (str_replace dquote (String dquote (String dquote "")) s
                      ++ String dquote "")
  else s.

Definition is_midnight (c : Cell) : bool :=
  match c with
  | Stamp t => t mod ns_per_day =? 0
  | _ => true
  end.

Definition render_date (t : Timestamp) : string :=
  let '(y, m, d) := civil_of_days (date_of t) in
  digits_fixed 4 y ++ "-" ++ digits_fixed 2 m ++ "-" ++ digits_fixed 2 d.

(** Text of one cell; a datetime column is written without the time of day
    when every value of the column is a midnight. *)
Definition csv_cell (date_only : bool) (c : Cell) : string :=
  match c with
  | NaN => ""
  | Num d => render_decimal d
  | Str s => s
  | Stamp t => if date_only then render_date t else render_timestamp t
  end.

Fixpoint join (sep : string) (l : list string) : string :=
  match l with
  | [] => ""
  | [x] => x
  | x :: l' => x ++ sep ++ join sep l'
  end.

Definition csv_line (fields : list string) : string :=
  join "," (map csv_field fields) ++ String newline "".

(** [f.to_csv(index=False)]: the header line, then one line per row. *)
Definition to_csv (f : Frame) : string :=
  let date_only c := forallb (fun r => is_midnight (snd r c)) (rows f) in
  csv_line (columns f) ++
  concat "" (map (fun r => csv_line (map (fun c => csv_cell (date_only c) (snd r c))
                                         (columns f)))
                 (rows f)).

(** ** The script from line 37 on, over a store of frame objects *)

(** Python variables hold references: [heap] is the list of the frame
    objects created so far, a variable holds a position in it. *)
Record Store := mkStore {
  heap : list Frame;
  var_df : nat;
  var_filtered_df : option nat
}.

Definition M (A : Type) := Store -> result (A * Store).

Definition ret {A} (a : A) : M A := fun s => Ok (a, s).

Definition bindM {A B} (c : M A) (k : A -> M B) : M B :=
  fun s => match c s with
           | Ok (a, s') => k a s'
           | Raise e => Raise e
           end.

Declare Scope store_scope.
Delimit Scope store_scope with st.
Notation "x <- c ;; k" := (bindM c (fun x => k))
  (at level 61, c at next level, right associativity) : store_scope.
Notation "c ;;; k" := (bindM c (fun _ => k))
  (at level 61, right associativity) : store_scope.

Definition lift {A} (c : result A) : M A :=
  fun s => match c with
           | Ok a => Ok (a, s)
           | Raise e => Raise e
           end.

(** A new object; its reference is returned. *)
Definition new_object (f : Frame) : M nat :=
  fun s => Ok (List.length (heap s),
               mkStore (heap s ++ [f])%list (var_df s) (var_filtered_df s)).

Definition deref (l : nat) : M Frame :=
  fun s => match nth_error (heap s) l with
           | Some f => Ok (f, s)
           | None => Raise NameError
           end.

Fixpoint replace_nth {A} (n : nat) (x : A) (l : list A) : list A :=
  match l, n with
  | [], _ => []
  | _ :: l', O => x :: l'
  | y :: l', S n' => y :: replace_nth n' x l'
  end.

(** In-place update of the object at [l]. *)
Definition mutate (l : nat) (f : Frame) : M unit :=
  fun s => Ok (tt, mkStore (replace_nth l f (heap s)) (var_df s) (var_filtered_df s)).

Definition read_df : M nat := fun s => Ok (var_df s, s).

Definition read_filtered_df : M nat :=
  fun s => match var_filtered_df s with
           | Some l => Ok (l, s)
           | None => Raise NameError
           end.

Definition bind_filtered_df (l : nat) : M unit :=
  fun s => Ok (tt, mkStore (heap s) (var_df s) (Some l)).

(** [filtered_df = op(filtered_df)] where [op] builds a new frame. *)
Definition rebind_filtered (op : Frame -> result Frame) : M unit :=
  (l <- read_filtered_df ;;
   f <- deref l ;;
   f' <- lift (op f) ;;
   l' <- new_object f' ;;
   bind_filtered_df l')%st.

(** A read-only use of [filtered_df]. *)
Definition with_filtered {A} (op : Frame -> result A) : M A :=
  (l <- read_filtered_df ;;
   f <- deref l ;;
   lift (op f))%st.

(** Lines 57-68. *)
Definition filter_stage (cr : Criteria) : M unit :=
  (d <- read_df ;;
   f <- deref d ;;
   l <- new_object f ;;                                   (* df.copy() *)
   bind_filtered_df l ;;;
   rebind_filtered (fun f => date_filter f cr) ;;;
   (if truthy (country_filter cr)
    then rebind_filtered (fun f => isin_filter f "Country" (country_filter cr))
    else ret tt) ;;;
   (if truthy (product_filter cr)
    then rebind_filtered (fun f => isin_filter f "Product" (product_filter cr))
    else ret tt))%st.

(** Lines 73-116: line 114 writes the Month column into the object that
    [filtered_df] refers to. *)
Definition aggregate_stage : M AggregateResult :=
  (ts <- with_filtered (fun f => column_sum f "Total_Sale") ;;
   ta <- with_filtered (fun f => column_sum f "Sales_After_Discount") ;;
   tu <- with_filtered (fun f => column_sum f "Units_Sold") ;;
   cs <- with_filtered (fun f => groupby_sum f "Country" "Sales_After_Discount") ;;
   ps <- with_filtered (fun f => groupby_sum f "Product" "Sales_After_Discount") ;;
   l <- read_filtered_df ;;
   f <- deref l ;;
   f' <- lift (add_month f) ;;
   mutate l f' ;;;
   ms <- with_filtered (fun f => groupby_sum f "Month" "Sales_After_Discount") ;;
   ret (mkAggregate ts ta tu cs ps ms))%st.

(** Lines 57-138: the aggregates and the exported text. *)
Definition dashboard (cr : Criteria) : M (AggregateResult * string) :=
  (filter_stage cr ;;;
   a <- aggregate_stage ;;
   csv <- with_filtered (fun f => Ok (to_csv f)) ;;
   ret (a, csv))%st.

(** The frame a variable refers to. *)
Definition frame_at (s : Store) (l : nat) : option Frame := nth_error (heap s) l.

Definition filtered_frame (s : Store) : option Frame :=
  match var_filtered_df s with
  | Some l => frame_at s l
  | None => None
  end.

(** ** Row-wise reading of the loader *)

(** The effect on one row of [df[c] = g(df[c])]. *)
Definition map_cell (c : string) (g : Cell -> Cell) (r : nat * Row) : nat * Row :=
  (fst r, upd (snd r) c (g (snd r c))).

Definition map_column (c : string) (g : Cell -> Cell) (df : Frame) : Frame :=
  {| columns := columns df; rows := map (map_cell c g) (rows df) |}.

Definition date_readable `{DatetimeParser} (c : Cell) : bool :=
  match to_datetime_cell c with
  | Ok _ => true
  | Raise _ => false
  end.

Definition to_datetime_total `{DatetimeParser} (c : Cell) : Cell :=
  match to_datetime_cell c with
  | Ok v => v
  | Raise _ => NaN
  end.

(** What the six currency lines (24-30) do to one row. *)
Definition currency_cleaned (r : nat * Row) : nat * Row :=
  map_cell "Sales_After_Discount" to_numeric_cell
    (map_cell "Total_Sale" to_numeric_cell
       (map_cell "Unit_Price" to_numeric_cell
          (map_cell "Sales_After_Discount" clean_text_cell
             (map_cell "Total_Sale" clean_text_cell
                (map_cell "Unit_Price" clean_text_cell r))))).

(** What lines 24-33 do to one row. *)
Definition clean_row `{DatetimeParser} (r : nat * Row) : nat * Row :=
  map_cell "Date" to_datetime_total (currency_cleaned r).

(** The frame of the cleaned rows that have no missing cell. *)
Definition cleaned `{DatetimeParser} (df : Frame) : Frame :=
  dropna {| columns := columns df; rows := map clean_row (rows df) |}.

(** The table as read, after line 21. *)
Definition stripped (raw : Frame) : Frame :=
  set_columns raw (map strip (columns raw)).

Definition loader_columns : list string :=
  ["Unit_Price"; "Total_Sale"; "Sales_After_Discount"; "Date"].

Definition required_columns : list string :=
  ["Date"; "Country"; "Product"; "Units_Sold";
   "Unit_Price"; "Total_Sale"; "Sales_After_Discount"].

(** The first of the loader's labels that does not select one column, in
    the order the loader reads them, and the error its lookup raises. *)
Definition first_bad_label (df : Frame) : option string :=
  find (fun c => negb (Nat.eqb (count_label c df) 1)) loader_columns.

Definition label_error (c : string) (df : Frame) : error :=
  match count_label c df with
  | O => KeyError c
  | _ => AttributeError
  end.

(** The value a currency text is read as. *)
Definition currency_value (c : Cell) : option Decimal :=
  to_numeric_str (clean_currency (astype_str c)).

Definition currency_columns : list string :=
  ["Unit_Price"; "Total_Sale"; "Sales_After_Discount"].

(** A Date cell that [pd.to_datetime] turns into a timestamp. *)
Definition parses_date `{DatetimeParser} (c : Cell) : Prop :=
  exists t, to_datetime_cell c = Ok (Stamp t).

(** No missing cell in the columns the loader does not rewrite. *)
Definition other_fields_present (cols : list string) (r : Row) : Prop :=
  forall k, In k cols -> ~ In k loader_columns -> r k <> NaN.

(** ** Well-formed datasets and the filter predicates *)

Definition is_stamp (c : Cell) : bool :=
  match c with
  | Stamp _ => true
  | _ => false
  end.

Definition is_num (c : Cell) : bool :=
  match c with
  | Num _ => true
  | _ => false
  end.

(** The loader's guarantee on a row: no missing cell, a timestamp as date,
    numbers in the three currency columns. *)
Definition row_loaded (cols : list string) (r : nat * Row) : bool :=
  (complete cols r && is_stamp (snd r "Date") &&
   forallb (fun c => is_num (snd r c)) currency_columns)%bool.

(** A dataset of the data model: unique column labels among which the
    seven required ones, unique row labels, rows as the loader leaves them
    and numeric unit counts. *)
Record Dataset (df : Frame) : Prop := mkDataset {
  ds_header : NoDup (columns df);
  ds_required : incl required_columns (columns df);
  ds_index : NoDup (map fst (rows df));
  ds_rows : Forall (fun r => row_loaded (columns df) r = true) (rows df);
  ds_units : Forall (fun r => is_num (snd r "Units_Sold") = true) (rows df)
}.

(** The date test of lines 59-62 on one row: both bounds are the
    midnights [pd.to_datetime] makes of the picked dates. *)
Definition passes_date (cr : Criteria) (r : Row) : bool :=
  match r "Date" with
  | Stamp t => ((to_datetime_date (start_date cr) <=? t) &&
                (t <=? to_datetime_date (end_date cr)))%bool
  | _ => false
  end.

Definition passes_isin (values : list string) (c : Cell) : bool :=
  (negb (truthy values) || isin values c)%bool.

Definition passes (cr : Criteria) (r : nat * Row) : bool :=
  (passes_date cr (snd r) &&
   passes_isin (country_filter cr) (snd r "Country") &&
   passes_isin (product_filter cr) (snd r "Product"))%bool.




(** [l] is [l'] with some elements deleted. *)
Inductive subsequence {A} : list A -> list A -> Prop :=
| subseq_nil : subsequence [] []
| subseq_skip x l l' : subsequence l l' -> subsequence l (x :: l')
| subseq_keep x l l' : subsequence l l' -> subsequence (x :: l) (x :: l').

(** The frame of the rows of [df] that pass [p]. *)
Definition restrict (p : nat * Row -> bool) (df : Frame) : Frame :=
  {| columns := columns df; rows := filter p (rows df) |}.

(** The number in a numeric cell. *)
Definition num_value (c : Cell) : Q :=
  match c with
  | Num d => dec_value d
  | _ => 0%Q
  end.

(** The exact sum of the numbers of a series. *)
Definition total (s : Series) : Q :=
  fold_right (fun c t => (num_value c + t)%Q) 0%Q s.

Definition column (c : string) (f : Frame) : Series :=
  map (fun r => snd r c) (rows f).

Fixpoint nodupb {A} (eqb : A -> A -> bool) (l : list A) : bool :=
  match l with
  | [] => true
  | x :: l' => (negb (existsb (eqb x) l') && nodupb eqb l')%bool
  end.

(** A test deciding [Dataset]. *)
Definition datasetb (df : Frame) : bool :=
  (nodupb String.eqb (columns df) &&
   forallb (fun c => existsb (String.eqb c) (columns df)) required_columns &&
   nodupb Nat.eqb (map fst (rows df)) &&
   forallb (row_loaded (columns df)) (rows df) &&
   forallb (fun r => is_num (snd r "Units_Sold")) (rows df))%bool.

(** The Month column line 114 computes. *)
Definition month_of (c : Cell) : Cell :=
  match c with
  | Stamp t => Str (month_label t)
  | _ => Str "NaT"
  end.

Definition with_month (f : Frame) : Frame :=
  setitem f "Month" (map month_of (column "Date" f)).

(** ** Sample tables *)

Definition row_of (cells : list (string * Cell)) : Row :=
  fun k => match find (fun kv => String.eqb k (fst kv)) cells with
           | Some kv => snd kv
           | None => NaN
           end.

Definition sample_header : list string :=
  [" Date"; "Country"; "Product"; "Units_Sold";
   "Unit_Price "; "Total_Sale"; "Sales_After_Discount"].

Definition sample_row (date : Cell) (country product : string) (units : Z)
           (price total net : Cell) : Row :=
  row_of [(" Date", date); ("Country", Str country); ("Product", Str product);
          ("Units_Sold", Num (mkDec units 0)); ("Unit_Price ", price);
          ("Total_Sale", total); ("Sales_After_Discount", net)].

(** Three well-formed rows, a row with a currency text that is no number,
    and rows with misplaced separators. *)
Definition sample_raw : Frame :=
  {| columns := sample_header;
     rows :=
       [(0%nat, sample_row (Str "05/01/2024") "US" "Widget" 10
                  (Str "$10.00") (Str "$100.00") (Str "$90.00"));
        (1%nat, sample_row (Str "20/01/2024") "US" "Gadget" 5
                  (Num (mkDec 10 0)) (Num (mkDec 50 0)) (Num (mkDec 40 0)));
        (2%nat, sample_row (Str "01/02/2024") "UK" "Widget" 2
                  (Str "1,2,3") (Str "12,34") (Str "20"));
        (3%nat, sample_row (Str "02/02/2024") "UK" "Gadget" 1
                  (Str "n/a") (Str "$15.00") (Str "$15.00"))] |}.

(** The dataset loaded from [sample_raw]. *)
Definition sample_dataset : Frame := @cleaned dmy_parser (stripped sample_raw).

(** A table whose only sale is dated 31 January 2024, 14:30. *)
Definition afternoon : Timestamp :=
  to_datetime_date (days_of_civil 2024 1 31) + 52200 * 1000000000.

Definition sample_timed : Frame :=
  {| columns := sample_header;
     rows :=
       [(0%nat, sample_row (Stamp afternoon) "US" "Widget" 10
                  (Str "$10.00") (Str "$100.00") (Str "$90.00"))] |}.

Definition january : Criteria :=
  mkCriteria (days_of_civil 2024 1 1) (days_of_civil 2024 1 31) [] [].

Definition us_only : Criteria :=
  mkCriteria (days_of_civil 2024 1 1) (days_of_civil 2024 2 1) ["US"] [].

Definition nothing_sold : Criteria :=
  mkCriteria (days_of_civil 2023 1 1) (days_of_civil 2023 12 31) [] [].

(** A store in which [df] refers to the loaded sample. *)
Definition sample_store : Store := mkStore [sample_dataset] 0 None.

(** The same table with an unreadable Date text in its last row. *)
Definition sample_bad_date : Frame :=
  {| columns := sample_header;
     rows :=
       [(0%nat, sample_row (Str "05/01/2024") "US" "Widget" 10
                  (Str "$10.00") (Str "$100.00") (Str "$90.00"));
        (1%nat, sample_row (Str "not a date") "US" "Gadget" 5
                  (Str "$10.00") (Str "$50.00") (Str "$40.00"))] |}.

(** A table without a Country column. *)
Definition sample_no_country : Frame :=
  {| columns := ["Date"; "Product"; "Units_Sold";
                 "Unit_Price"; "Total_Sale"; "Sales_After_Discount"];
     rows :=
       [(0%nat, row_of [("Date", Str "05/01/2024"); ("Product", Str "Widget");
                        ("Units_Sold", Num (mkDec 10 0)); ("Unit_Price", Str "$10.00");
                        ("Total_Sale", Str "$100.00");
                        ("Sales_After_Discount", Str "$90.00")])] |}.

(** ** Further readings of the script *)


(** The period the date picker of lines 42-45 starts from: the calendar
    days of the least and of the greatest Date. *)
Definition default_criteria (bounds : Timestamp * Timestamp) : Criteria :=
  mkCriteria (date_of (fst bounds)) (date_of (snd bounds)) [] [].

(** The calendar-day test on one row. *)
Definition within_days (cr : Criteria) (r : nat * Row) : bool :=
  match snd r "Date" with
  | Stamp t => ((start_date cr <=? date_of t) && (date_of t <=? end_date cr))%bool
  | _ => false
  end.






(** No white space at the head of the text. *)
Definition head_clean (s : string) : bool :=
  match s with
  | EmptyString => true
  | String c _ => negb (is_space c)
  end.



(** ** The three metrics (lines 77-81) *)

(** Rounding to the nearest integer, a tie going to the even one: the
    rounding of the format code [.0f]. *)
Definition round_half_even (q : Q) : Z :=
  let n := Qnum q in
  let d := Zpos (Qden q) in
  let f := n / d in
  let r := 2 * (n mod d) in
  if r <? d then f
  else if d <? r then f + 1
  else if Z.even f then f else f + 1.

(** The digits of [n >= 0] with a comma before every group of three. *)
Fixpoint group_upto (fuel : nat) (n : Z) : string :=
  match fuel with
  | O => digits_fixed (width n) n
  | S fuel' =>
      if n <? 1000 then digits_fixed (width n) n
      else group_upto fuel' (n / 1000) ++ "," ++ digits_fixed 3 (n mod 1000)
  end.

Definition group_thousands (n : Z) : string := group_upto (width n) n.

(** [f"{x:,.0f}"] *)
Definition format_rounded (x : Q) : string :=
  (if Qnum x <? 0 then "-" else "") ++ group_thousands (Z.abs (round_half_even x)).

(** [f"{n:,}"] for an int. *)
Definition format_int (n : Z) : string :=
  (if n <? 0 then "-" else "") ++ group_thousands (Z.abs n).

(** The texts of the three metrics: gross revenue, net revenue, units. *)
Definition metric_texts (a : AggregateResult) : string * string * string :=
  ("$" ++ format_rounded (total_sales a),
   "$" ++ format_rounded (total_after_discount a),
   format_int (int_of (total_units a))).

(** * Properties *)

Example parse_plain : to_numeric_str "1234.50" = Some (mkDec 123450 2).
Proof. reflexivity. Qed.
Example render_plain : render_decimal (mkDec (-123450) 2) = "-1234.50".
Proof. reflexivity. Qed.
Example month_ex : month_label (to_datetime_date (days_of_civil 2024 3 5)) = "2024-03".
Proof. reflexivity. Qed.
Example ts_ex : render_timestamp (to_datetime_date (days_of_civil 2024 3 5) + 52200 * 1000000000) = "2024-03-05 14:30:00".
Proof. reflexivity. Qed.
Example dmy_ex : parse_dmy "05/03/2024" = Some (to_datetime_date (days_of_civil 2024 3 5)).
Proof. reflexivity. Qed.
Example dmy_bad : parse_dmy "31/02/2024" = None.
Proof. reflexivity. Qed.

(** ** Lists, masks and the error monad *)

Lemma select_map {A} (p : A -> bool) (l : list A) :
  select l (map p l) = filter p l.
Proof.
  induction l as [|x l IH]; simpl; [reflexivity|].
  rewrite IH. reflexivity.
Qed.

Lemma and_mask_map {A} (p q : A -> bool) (l : list A) :
  and_mask (map p l) (map q l) = map (fun x => (p x && q x)%bool) l.
Proof.
  induction l as [|x l IH]; simpl; [reflexivity|].
  now rewrite IH.
Qed.

Lemma mapM_total {A B} (f : A -> result B) (g : A -> B) (l : list A) :
  (forall x, In x l -> f x = Ok (g x)) -> mapM f l = Ok (map g l).
Proof.
  induction l as [|x l IH]; intros H; simpl; [reflexivity|].
  rewrite (H x (or_introl eq_refl)). simpl.
  rewrite IH by (intros y Hy; apply H; now right). reflexivity.
Qed.

Lemma mapM_raise {A B} (f : A -> result B) (l : list A) (x : A) (e : error) :
  In x l -> f x = Raise e -> exists e', mapM f l = Raise e'.
Proof.
  induction l as [|y l IH]; intros Hin Hx; [contradiction|].
  simpl. destruct Hin as [->|Hin].
  - rewrite Hx. simpl. eauto.
  - destruct (f y); simpl; [|eauto].
    destruct (IH Hin Hx) as [e' ->]. simpl. eauto.
Qed.

(** ** Frames *)

Lemma assign_rows_map (c : string) (g : Cell -> Cell) (rs : list (nat * Row)) :
  assign_rows rs c (map g (map (fun r => snd r c) rs)) = map (map_cell c g) rs.
Proof.
  induction rs as [|r rs IH]; simpl; [reflexivity|].
  now rewrite IH.
Qed.

Lemma getitem_present (df : Frame) (c : string) :
  count_label c df = 1%nat ->
  getitem df c = Ok (map (fun r => snd r c) (rows df)).
Proof. intros H. unfold getitem. now rewrite H. Qed.

Lemma getitem_absent (df : Frame) (c : string) :
  count_label c df = 0%nat -> getitem df c = Raise (KeyError c).
Proof. intros H. unfold getitem. now rewrite H. Qed.

Lemma getitem_ok (df : Frame) (c : string) (s : Series) :
  getitem df c = Ok s ->
  count_label c df = 1%nat /\ s = map (fun r => snd r c) (rows df).
Proof.
  unfold getitem. destruct (count_label c df) as [|[|n]]; intros H;
    try discriminate. inversion H. auto.
Qed.

Lemma setitem_present (df : Frame) (c : string) (g : Cell -> Cell) :
  count_label c df = 1%nat ->
  setitem df c (map g (map (fun r => snd r c) (rows df))) = map_column c g df.
Proof.
  intros H. unfold setitem, map_column. rewrite H, assign_rows_map. reflexivity.
Qed.

Lemma count_label_In (c : string) (df : Frame) :
  count_label c df <> 0%nat <-> In c (columns df).
Proof.
  unfold count_label. induction (columns df) as [|x l IH]; simpl.
  - split; [congruence|tauto].
  - destruct (String.eqb c x) eqn:E; simpl.
    + apply String.eqb_eq in E. subst. split; auto.
    + apply String.eqb_neq in E. rewrite IH. split; [tauto|].
      intros [H|H]; [congruence|exact H].
Qed.

Lemma count_label_NoDup (c : string) (df : Frame) :
  NoDup (columns df) -> In c (columns df) -> count_label c df = 1%nat.
Proof.
  unfold count_label. induction (columns df) as [|x l IH]; simpl; [tauto|].
  intros Hnd Hin. inversion Hnd as [|? ? Hx Hl]; subst.
  destruct (String.eqb c x) eqn:E; simpl.
  - apply String.eqb_eq in E. subst.
    f_equal. destruct (filter (String.eqb x) l) as [|y ys] eqn:F; [reflexivity|].
    assert (Hy : In y (filter (String.eqb x) l)) by (rewrite F; now left).
    apply filter_In in Hy. destruct Hy as [Hy1 Hy2].
    apply String.eqb_eq in Hy2. subst. contradiction.
  - apply String.eqb_neq in E. apply IH; [assumption|].
    destruct Hin as [H|H]; [congruence|exact H].
Qed.

Lemma count_label_map_column (c c' : string) (g : Cell -> Cell) (df : Frame) :
  count_label c (map_column c' g df) = count_label c df.
Proof. reflexivity. Qed.

Section Loader.
Context `{P : DatetimeParser}.

Lemma load_data_columns_present (raw : Frame) :
  (forall c, In c loader_columns -> count_label c (stripped raw) = 1%nat) ->
  load_data raw =
  (d <- mapM to_datetime_cell (map (fun r => snd r "Date") (rows (stripped raw))) ;;
   Ok (dropna {| columns := columns (stripped raw);
                 rows := assign_rows (map currency_cleaned (rows (stripped raw)))
                                     "Date" d |})).
Proof.
  intros H. unfold load_data. fold (stripped raw).
  assert (Hup := H "Unit_Price" ltac:(simpl; tauto)).
  assert (Hts := H "Total_Sale" ltac:(simpl; tauto)).
  assert (Hsa := H "Sales_After_Discount" ltac:(simpl; tauto)).
  assert (Hda := H "Date" ltac:(simpl; tauto)).
  cbv zeta.
  do 6 (rewrite getitem_present by (rewrite ?count_label_map_column; assumption);
        cbn [bind];
        rewrite setitem_present by (rewrite ?count_label_map_column; assumption)).
  rewrite getitem_present by (rewrite ?count_label_map_column; assumption).
  cbn [bind]. unfold map_column; cbn [rows columns].
  rewrite !map_map.
  match goal with |- bind ?a _ = bind ?b _ => change a with b end.
  destruct (mapM _ _) as [d|e]; cbn [bind]; [|reflexivity].
  unfold setitem. cbn [columns rows].
  unfold count_label in Hda |- *. cbn [columns]. rewrite Hda. reflexivity.
Qed.
End Loader.

Section LoaderOutcome.
Context `{P : DatetimeParser}.

Lemma readable_total (c : Cell) :
  date_readable c = true -> to_datetime_cell c = Ok (to_datetime_total c).
Proof.
  unfold date_readable, to_datetime_total.
  destruct (to_datetime_cell c); [reflexivity|discriminate].
Qed.

Lemma unreadable_raises (c : Cell) :
  date_readable c = false -> to_datetime_cell c = Raise ValueError.
Proof.
  unfold date_readable. destruct c as [|d|s|t]; simpl; try discriminate.
  destruct (parse_datetime s); [discriminate|reflexivity].
Qed.

Lemma first_bad_label_none (df : Frame) :
  first_bad_label df = None <->
  (forall c, In c loader_columns -> count_label c df = 1%nat).
Proof.
  unfold first_bad_label. split.
  - intros H c Hc. apply (find_none _ _ H) in Hc.
    apply Bool.negb_false_iff, Nat.eqb_eq in Hc. exact Hc.
  - intros H. destruct (find _ _) as [c|] eqn:F; [|reflexivity].
    apply find_some in F. destruct F as [Hin Hc].
    rewrite (H c Hin) in Hc. discriminate.
Qed.

(** A loader label that is absent or duplicated stops the load at its
    first lookup. *)
Lemma load_data_label_fails (raw : Frame) (c : string) :
  first_bad_label (stripped raw) = Some c ->
  load_data raw = Raise (label_error c (stripped raw)).
Proof.
  unfold first_bad_label, loader_columns, label_error; simpl find.
  unfold load_data; fold (stripped raw); cbv zeta.
  destruct (count_label "Unit_Price" (stripped raw)) as [|[|n1]] eqn:E1; simpl negb; cbv iota.
  1,3: intros [=<-]; unfold getitem at 1; rewrite E1; reflexivity.
  rewrite getitem_present by assumption; cbn [bind];
    rewrite setitem_present by assumption.
  destruct (count_label "Total_Sale" (stripped raw)) as [|[|n2]] eqn:E2; simpl negb; cbv iota.
  1,3: intros [=<-]; unfold getitem at 1;
       rewrite count_label_map_column, E2; reflexivity.
  rewrite getitem_present by (rewrite ?count_label_map_column; assumption);
    cbn [bind];
    rewrite setitem_present by (rewrite ?count_label_map_column; assumption).
  destruct (count_label "Sales_After_Discount" (stripped raw)) as [|[|n3]] eqn:E3;
    simpl negb; cbv iota.
  1,3: intros [=<-]; unfold getitem at 1;
       rewrite !count_label_map_column, E3; reflexivity.
  do 4 (rewrite getitem_present by (rewrite ?count_label_map_column; assumption);
        cbn [bind];
        rewrite setitem_present by (rewrite ?count_label_map_column; assumption)).
  destruct (count_label "Date" (stripped raw)) as [|[|n4]] eqn:E4;
    simpl negb; cbv iota; try discriminate.
  all: intros [=<-]; unfold getitem at 1;
       rewrite !count_label_map_column, E4; reflexivity.
Qed.

Lemma dates_after_currency (rs : list (nat * Row)) :
  map (fun r => snd r "Date") (map currency_cleaned rs) =
  map (fun r => snd r "Date") rs.
Proof. rewrite map_map. reflexivity. Qed.

(** With the four labels in place and every Date cell readable, the
    loader returns the cleaned frame. *)
Lemma load_data_returns (raw : Frame) :
  first_bad_label (stripped raw) = None ->
  Forall (fun r => date_readable (snd r "Date") = true) (rows (stripped raw)) ->
  load_data raw = Ok (cleaned (stripped raw)).
Proof.
  intros Hl Hd. pose proof (proj1 (first_bad_label_none _) Hl) as Hc; clear Hl; rename Hc into Hl.
  rewrite (load_data_columns_present raw Hl).
  rewrite (mapM_total _ to_datetime_total).
  - cbn [bind]. unfold cleaned. do 2 f_equal. f_equal.
    rewrite <- (dates_after_currency (rows (stripped raw))).
    rewrite assign_rows_map, map_map. reflexivity.
  - intros c Hc. apply in_map_iff in Hc. destruct Hc as [r [<- Hr]].
    apply readable_total. rewrite Forall_forall in Hd. now apply Hd.
Qed.

(** An unreadable Date text stops the load. *)
Lemma load_data_date_fails (raw : Frame) (r : nat * Row) :
  first_bad_label (stripped raw) = None ->
  In r (rows (stripped raw)) ->
  date_readable (snd r "Date") = false ->
  exists e, load_data raw = Raise e.
Proof.
  intros Hl Hr Hd. pose proof (proj1 (first_bad_label_none _) Hl) as Hc; clear Hl; rename Hc into Hl.
  rewrite (load_data_columns_present raw Hl).
  destruct (mapM_raise to_datetime_cell
              (map (fun r => snd r "Date") (rows (stripped raw)))
              (snd r "Date") ValueError) as [e He].
  - apply in_map_iff. exists r. auto.
  - now apply unreadable_raises.
  - rewrite He. cbn [bind]. eauto.
Qed.

(** The loader returns exactly when the four labels each select one
    column and every Date cell is readable, and then returns the cleaned
    frame. *)
Lemma load_data_ok_iff (raw ds : Frame) :
  load_data raw = Ok ds <->
  first_bad_label (stripped raw) = None /\
  Forall (fun r => date_readable (snd r "Date") = true) (rows (stripped raw)) /\
  ds = cleaned (stripped raw).
Proof.
  split.
  - intros H.
    destruct (first_bad_label (stripped raw)) as [c|] eqn:Hl.
    { rewrite (load_data_label_fails raw c Hl) in H. discriminate. }
    assert (Hd : Forall (fun r => date_readable (snd r "Date") = true)
                        (rows (stripped raw))).
    { apply Forall_forall. intros r Hr.
      destruct (date_readable (snd r "Date")) eqn:E; [reflexivity|].
      destruct (load_data_date_fails raw r Hl Hr E) as [e He].
      rewrite He in H. discriminate. }
    rewrite (load_data_returns raw Hl Hd) in H. inversion H. auto.
  - intros (Hl & Hd & ->). now apply load_data_returns.
Qed.
End LoaderOutcome.

(** ** The cells of a cleaned row *)

Lemma currency_cell_cleaned (c : Cell) :
  to_numeric_cell (clean_text_cell c) =
  match currency_value c with
  | Some d => Num d
  | None => NaN
  end.
Proof. reflexivity. Qed.

Section CleanRow.
Context `{P : DatetimeParser}.

Lemma clean_row_label (r : nat * Row) : fst (clean_row r) = fst r.
Proof. reflexivity. Qed.

Lemma clean_row_currency (r : nat * Row) (c : string) :
  In c currency_columns ->
  snd (clean_row r) c = match currency_value (snd r c) with
                        | Some d => Num d
                        | None => NaN
                        end.
Proof.
  intros [<-|[<-|[<-|[]]]]; reflexivity.
Qed.

Lemma clean_row_date (r : nat * Row) :
  snd (clean_row r) "Date" = to_datetime_total (snd r "Date").
Proof. reflexivity. Qed.

Lemma clean_row_other (r : nat * Row) (k : string) :
  ~ In k loader_columns -> snd (clean_row r) k = snd r k.
Proof.
  intros H. unfold clean_row, currency_cleaned, map_cell, upd; cbn [fst snd].
  repeat match goal with
         | |- context [String.eqb k ?c] =>
             destruct (String.eqb_spec k c) as [->|_];
             [exfalso; apply H; simpl; tauto|]
         end.
  reflexivity.
Qed.

Lemma loader_columns_split (k : string) :
  In k loader_columns <-> In k currency_columns \/ k = "Date".
Proof.
  unfold loader_columns, currency_columns. simpl.
  intuition congruence.
Qed.

(** The cleaned row has no missing cell exactly when its three currency
    texts are numbers, its date is a timestamp and nothing else was
    missing. *)
Lemma clean_row_complete (cols : list string) (r : nat * Row) :
  (forall c, In c loader_columns -> In c cols) ->
  complete cols (clean_row r) = true <->
  (forall c, In c currency_columns -> currency_value (snd r c) <> None) /\
  to_datetime_total (snd r "Date") <> NaN /\
  other_fields_present cols (snd r).
Proof.
  intros Hc. unfold complete. rewrite forallb_forall. split.
  - intros H. repeat split.
    + intros c Hin E.
      specialize (H c (Hc c (proj2 (loader_columns_split c) (or_introl Hin)))).
      rewrite (clean_row_currency r c Hin), E in H. discriminate.
    + intros E.
      specialize (H "Date" (Hc "Date" ltac:(simpl; tauto))).
      rewrite clean_row_date, E in H. discriminate.
    + intros k Hk Hn E. specialize (H k Hk).
      rewrite (clean_row_other r k Hn), E in H. discriminate.
  - intros (Hcur & Hd & Ho) k Hk.
    destruct (in_dec string_dec k loader_columns) as [Hl|Hl].
    + apply loader_columns_split in Hl. destruct Hl as [Hl| ->].
      * rewrite (clean_row_currency r k Hl).
        specialize (Hcur k Hl). now destruct (currency_value (snd r k)).
      * rewrite clean_row_date. now destruct (to_datetime_total (snd r "Date")).
    + rewrite (clean_row_other r k Hl). specialize (Ho k Hk Hl).
      now destruct (snd r k).
Qed.

Lemma parses_date_total (c : Cell) :
  parses_date c <-> date_readable c = true /\ to_datetime_total c <> NaN.
Proof.
  unfold parses_date, date_readable, to_datetime_total. split.
  - intros [t ->]. split; [reflexivity|discriminate].
  - destruct c as [|d|s|t]; simpl.
    + intros [_ H]. congruence.
    + eauto.
    + destruct (parse_datetime s); [eauto|]. intros [H _]. discriminate.
    + eauto.
Qed.
End CleanRow.

Lemma stripped_labels (raw : Frame) :
  map fst (rows (stripped raw)) = map fst (rows raw).
Proof. unfold stripped, set_columns. simpl. now rewrite map_map. Qed.

Lemma NoDup_label_unique {A} (l : list (nat * A)) (i : nat) (x y : A) :
  NoDup (map fst l) -> In (i, x) l -> In (i, y) l -> x = y.
Proof.
  induction l as [|[j z] l IH]; simpl; [tauto|].
  intros Hnd Hx Hy. inversion Hnd as [|? ? Hj Hl]; subst.
  destruct Hx as [Hx|Hx], Hy as [Hy|Hy].
  - congruence.
  - inversion Hx; subst. exfalso. apply Hj.
    apply in_map_iff. exists (i, y). auto.
  - inversion Hy; subst. exfalso. apply Hj.
    apply in_map_iff. exists (i, x). auto.
  - now apply IH.
Qed.

(** ** The loader keeps and drops whole rows *)

Section LoaderRows.
Context `{P : DatetimeParser}.

Lemma loaded_columns (raw ds : Frame) :
  load_data raw = Ok ds ->
  columns ds = columns (stripped raw) /\
  (forall c, In c loader_columns -> In c (columns ds)) /\
  rows ds = filter (complete (columns ds)) (map clean_row (rows (stripped raw))).
Proof.
  intros H. apply load_data_ok_iff in H. destruct H as (Hl & _ & ->).
  repeat split.
  intros c Hc. change (In c (columns (stripped raw))).
  apply count_label_In. rewrite (proj1 (first_bad_label_none _) Hl c Hc).
  discriminate.
Qed.

(** Every row of the loaded frame is the cleaned form of a row of the
    table whose three currency texts are numbers, whose date is a
    timestamp and which had no missing cell. *)
Lemma loaded_row_origin (raw ds : Frame) (i : nat) (r' : Row) :
  load_data raw = Ok ds ->
  In (i, r') (rows ds) ->
  exists r, In (i, r) (rows (stripped raw)) /\
            (i, r') = clean_row (i, r) /\
            (forall c, In c currency_columns -> currency_value (r c) <> None) /\
            to_datetime_total (r "Date") <> NaN /\
            other_fields_present (columns ds) r.
Proof.
  intros H Hin. destruct (loaded_columns raw ds H) as (Hc & Hl & Hr).
  rewrite Hr in Hin. apply filter_In in Hin. destruct Hin as [Hm Hk].
  apply in_map_iff in Hm. destruct Hm as [[j r] [E Hj]].
  assert (j = i) by (apply (f_equal fst) in E; exact E). subst j.
  exists r. split; [exact Hj|]. split; [now symmetry|].
  rewrite <- E in Hk. apply (clean_row_complete _ (i, r) Hl) in Hk. exact Hk.
Qed.

Lemma loaded_row_kept (raw ds : Frame) (i : nat) (r : Row) :
  load_data raw = Ok ds ->
  In (i, r) (rows (stripped raw)) ->
  (forall c, In c currency_columns -> currency_value (r c) <> None) ->
  parses_date (r "Date") ->
  other_fields_present (columns ds) r ->
  In (clean_row (i, r)) (rows ds).
Proof.
  intros H Hin Hcur Hd Ho. destruct (loaded_columns raw ds H) as (Hc & Hl & Hr).
  rewrite Hr. apply filter_In. split.
  - apply in_map_iff. eauto.
  - apply (clean_row_complete _ (i, r) Hl). cbn [snd].
    apply parses_date_total in Hd. tauto.
Qed.
End LoaderRows.


(** ** What the loader guarantees *)

Section LoaderInvariant.
Context `{P : DatetimeParser}.

Lemma to_datetime_total_kind (c : Cell) :
  to_datetime_total c = NaN \/ is_stamp (to_datetime_total c) = true.
Proof.
  unfold to_datetime_total. destruct c as [|d|s|t]; simpl; auto.
  destruct (parse_datetime s); simpl; auto.
Qed.

Lemma loaded_rows (raw ds : Frame) :
  load_data raw = Ok ds ->
  Forall (fun r => row_loaded (columns ds) r = true) (rows ds).
Proof.
  intros H. apply Forall_forall. intros [i r'] Hin.
  destruct (loaded_columns raw ds H) as (_ & Hl & Hr).
  assert (Hk : complete (columns ds) (i, r') = true).
  { rewrite Hr in Hin. apply filter_In in Hin. tauto. }
  destruct (loaded_row_origin raw ds i r' H Hin) as (r & _ & E & Hcur & Hd & _).
  unfold row_loaded. rewrite Hk, E. cbn [andb].
  apply andb_true_intro. split.
  - rewrite clean_row_date. cbn [snd].
    destruct (to_datetime_total_kind (r "Date")); [contradiction|assumption].
  - apply forallb_forall. intros c Hc.
    rewrite (clean_row_currency (i, r) c Hc). cbn [snd].
    specialize (Hcur c Hc). now destruct (currency_value (r c)).
Qed.


End LoaderInvariant.

(** ** The filter *)

Lemma filter_twice {A} (p q : A -> bool) (l : list A) :
  filter p (filter q l) = filter (fun x => (q x && p x)%bool) l.
Proof.
  induction l as [|x l IH]; simpl; [reflexivity|].
  destruct (q x); simpl; [destruct (p x)|]; now rewrite IH.
Qed.


Lemma filter_labels_NoDup {A} (p : nat * A -> bool) (l : list (nat * A)) :
  NoDup (map fst l) -> NoDup (map fst (filter p l)).
Proof.
  induction l as [|x l IH]; simpl; intros H; [constructor|].
  inversion H as [|? ? Hx Hl]; subst.
  destruct (p x); simpl; [|now apply IH].
  constructor; [|now apply IH].
  intros Hin. apply Hx. apply in_map_iff in Hin. destruct Hin as [y [E Hy]].
  apply filter_In in Hy. apply in_map_iff. exists y. tauto.
Qed.

Lemma required_present (df : Frame) (c : string) :
  Dataset df -> In c required_columns -> count_label c df = 1%nat.
Proof.
  intros D Hc. apply count_label_NoDup; [apply D|]. now apply (ds_required df D).
Qed.

Lemma dataset_row (df : Frame) (r : nat * Row) :
  Dataset df -> In r (rows df) ->
  complete (columns df) r = true /\
  (exists t, snd r "Date" = Stamp t) /\
  (exists d, snd r "Sales_After_Discount" = Num d) /\
  (exists d, snd r "Total_Sale" = Num d) /\
  (exists d, snd r "Units_Sold" = Num d).
Proof.
  intros D Hr.
  pose proof (proj1 (Forall_forall _ _) (ds_rows df D) r Hr) as H.
  pose proof (proj1 (Forall_forall _ _) (ds_units df D) r Hr) as Hu.
  unfold row_loaded in H. simpl in H. cbv beta in Hu.
  apply andb_prop in H. destruct H as [H Hn].
  apply andb_prop in H. destruct H as [H Hs].
  apply andb_prop in Hn. destruct Hn as [_ Hn].
  apply andb_prop in Hn. destruct Hn as [Ht Hn].
  apply andb_prop in Hn. destruct Hn as [Ha _].
  repeat split; try assumption.
  - destruct (snd r "Date"); try discriminate; eauto.
  - destruct (snd r "Sales_After_Discount"); try discriminate; eauto.
  - destruct (snd r "Total_Sale"); try discriminate; eauto.
  - destruct (snd r "Units_Sold"); try discriminate; eauto.
Qed.

Lemma complete_cell (cols : list string) (r : nat * Row) (c : string) :
  complete cols r = true -> In c cols -> snd r c <> NaN.
Proof.
  unfold complete. rewrite forallb_forall. intros H Hc E.
  specialize (H c Hc). rewrite E in H. discriminate.
Qed.

Lemma Dataset_restrict (p : nat * Row -> bool) (df : Frame) :
  Dataset df -> Dataset (restrict p df).
Proof.
  intros [Hh Hq Hi Hr Hu]. constructor; simpl.
  - exact Hh.
  - exact Hq.
  - now apply filter_labels_NoDup.
  - apply Forall_forall. intros r Hin. apply filter_In in Hin.
    rewrite Forall_forall in Hr. now apply Hr.
  - apply Forall_forall. intros r Hin. apply filter_In in Hin.
    rewrite Forall_forall in Hu. now apply Hu.
Qed.

Lemma date_filter_rows (df : Frame) (cr : Criteria) :
  count_label "Date" df = 1%nat ->
  Forall (fun r => is_stamp (snd r "Date") = true) (rows df) ->
  date_filter df cr = Ok (restrict (fun r => passes_date cr (snd r)) df).
Proof.
  intros Hc Hs. unfold date_filter. rewrite (getitem_present _ _ Hc). cbn [bind].
  set (lo := to_datetime_date (start_date cr)).
  set (hi := to_datetime_date (end_date cr)).
  set (dates := map (fun r : nat * Row => snd r "Date") (rows df)).
  assert (Hd : forall c, In c dates -> is_stamp c = true).
  { intros c Hin. apply in_map_iff in Hin. destruct Hin as [r [<- Hr]].
    rewrite Forall_forall in Hs. now apply Hs. }
  rewrite (mapM_total (ge_cell lo)
             (fun c => match c with Stamp t => lo <=? t | _ => false end))
    by (intros c Hin; apply Hd in Hin; now destruct c).
  cbn [bind].
  rewrite (mapM_total (le_cell hi)
             (fun c => match c with Stamp t => t <=? hi | _ => false end))
    by (intros c Hin; apply Hd in Hin; now destruct c).
  cbn [bind]. unfold restrict, loc_mask. do 2 f_equal.
  rewrite and_mask_map. unfold dates. rewrite map_map, select_map.
  apply filter_ext. intros r. unfold passes_date. fold lo hi.
  now destruct (snd r "Date").
Qed.

Lemma isin_filter_rows (df : Frame) (col : string) (values : list string) :
  count_label col df = 1%nat ->
  isin_filter df col values = Ok (restrict (fun r => isin values (snd r col)) df).
Proof.
  intros Hc. unfold isin_filter. rewrite (getitem_present _ _ Hc). cbn [bind].
  unfold restrict, loc_mask. now rewrite map_map, select_map.
Qed.

(** On a dataset the three statements of lines 59-68 amount to one pass
    that keeps the rows satisfying the conjunction. *)
Lemma filter_view_rows (df : Frame) (cr : Criteria) :
  Dataset df -> filter_view df cr = Ok (restrict (passes cr) df).
Proof.
  intros D. unfold filter_view.
  rewrite date_filter_rows.
  2: { apply (required_present df "Date" D). simpl; tauto. }
  2: { apply Forall_forall. intros r Hr.
       destruct (dataset_row df r D Hr) as (_ & [t ->] & _). reflexivity. }
  cbn [bind].
  assert (Hco : count_label "Country" df = 1%nat)
    by (apply (required_present df _ D); simpl; tauto).
  assert (Hpr : count_label "Product" df = 1%nat)
    by (apply (required_present df _ D); simpl; tauto).
  unfold passes, passes_isin.
  destruct (country_filter cr) as [|c0 cs] eqn:Ec;
    destruct (product_filter cr) as [|p0 ps] eqn:Ep; cbn [truthy negb orb bind].
  - unfold restrict. do 2 f_equal. apply filter_ext. intros r.
    now rewrite !andb_true_r.
  - rewrite isin_filter_rows by exact Hpr. cbn [bind].
    unfold restrict; cbn [columns rows]. do 2 f_equal.
    rewrite filter_twice. apply filter_ext. intros r.
    now rewrite andb_true_r.
  - rewrite isin_filter_rows by exact Hco. cbn [bind].
    unfold restrict; cbn [columns rows]. do 2 f_equal.
    rewrite filter_twice. apply filter_ext. intros r.
    now rewrite andb_true_r.
  - rewrite isin_filter_rows by exact Hco. cbn [bind].
    rewrite isin_filter_rows by exact Hpr. cbn [bind].
    unfold restrict; cbn [columns rows]. do 2 f_equal.
    rewrite !filter_twice. apply filter_ext. intros r.
    now rewrite andb_assoc.
Qed.





(** ** Deciding the dataset invariant *)

Lemma nodupb_sound {A} (eqb : A -> A -> bool) (l : list A) :
  (forall x y, eqb x y = true <-> x = y) ->
  nodupb eqb l = true -> NoDup l.
Proof.
  intros He. induction l as [|x l IH]; simpl; intros H; [constructor|].
  apply andb_prop in H. destruct H as [Hx Hl].
  constructor; [|now apply IH].
  intros Hin. apply Bool.negb_true_iff in Hx.
  assert (E : existsb (eqb x) l = true).
  { apply existsb_exists. exists x. split; [exact Hin|now apply He]. }
  congruence.
Qed.

Lemma datasetb_sound (df : Frame) : datasetb df = true -> Dataset df.
Proof.
  unfold datasetb. intros H.
  apply andb_prop in H. destruct H as [H Hu].
  apply andb_prop in H. destruct H as [H Hr].
  apply andb_prop in H. destruct H as [H Hi].
  apply andb_prop in H. destruct H as [Hh Hq].
  constructor.
  - apply (nodupb_sound String.eqb); [apply String.eqb_eq|exact Hh].
  - intros c Hc. rewrite forallb_forall in Hq. specialize (Hq c Hc).
    apply existsb_exists in Hq. destruct Hq as [x [Hx E]].
    apply String.eqb_eq in E. now subst.
  - apply (nodupb_sound Nat.eqb); [apply Nat.eqb_eq|exact Hi].
  - apply Forall_forall. now apply forallb_forall.
  - apply Forall_forall. rewrite forallb_forall in Hu. exact Hu.
Qed.

(** ** Sums and grouped sums *)

Lemma sum_series_total (s : Series) :
  Forall (fun c => is_num c = true) s -> sum_series s = Ok (total s).
Proof.
  induction 1 as [|c s Hc Hs IH]; simpl; [reflexivity|].
  destruct c; try discriminate. now rewrite IH.
Qed.

Lemma insert_group_sum (k : Cell) (v : Q) (g : list (Cell * Q)) :
  (sum_groups (insert_group k v g) == v + sum_groups g)%Q.
Proof.
  induction g as [|[k' v'] g IH]; simpl.
  - reflexivity.
  - destruct (cell_compare k k'); simpl.
    + ring.
    + reflexivity.
    + rewrite IH. ring.
Qed.

Lemma group_sums_total (keys vals : Series) (acc : list (Cell * Q)) :
  List.length keys = List.length vals ->
  Forall (fun k => k <> NaN) keys ->
  Forall (fun c => is_num c = true) vals ->
  exists g, group_sums keys vals acc = Ok g /\
            (sum_groups g == sum_groups acc + total vals)%Q.
Proof.
  revert vals acc. induction keys as [|k keys IH]; intros vals acc Hlen Hk Hv.
  - destruct vals; [|discriminate]. exists acc. split; [reflexivity|].
    simpl. ring.
  - destruct vals as [|v vals]; [discriminate|].
    inversion Hk as [|? ? Hk1 Hk2]; subst. inversion Hv as [|? ? Hv1 Hv2]; subst.
    destruct v as [|d|s|t]; try discriminate.
    destruct (IH vals (insert_group k (dec_value d) acc)) as [g [Hg Hs]];
      [simpl in Hlen; congruence|assumption|assumption|].
    exists g. split.
    + simpl. destruct k; [congruence|exact Hg..].
    + rewrite Hs, insert_group_sum. simpl. ring.
Qed.

Lemma groupby_sum_total (f : Frame) (key val : string) :
  count_label key f = 1%nat ->
  count_label val f = 1%nat ->
  Forall (fun r => snd r key <> NaN) (rows f) ->
  Forall (fun r => is_num (snd r val) = true) (rows f) ->
  exists g, groupby_sum f key val = Ok g /\
            (sum_groups g == total (column val f))%Q.
Proof.
  intros Hk Hv Hkeys Hvals. unfold groupby_sum.
  rewrite (getitem_present _ _ Hk), (getitem_present _ _ Hv). cbn [bind].
  destruct (group_sums_total (map (fun r => snd r key) (rows f))
              (map (fun r => snd r val) (rows f)) []) as [g [Hg Hs]].
  - now rewrite !length_map.
  - apply Forall_map. exact Hkeys.
  - apply Forall_map. exact Hvals.
  - exists g. split; [exact Hg|]. rewrite Hs. simpl. unfold column. ring.
Qed.

Lemma column_sum_total (f : Frame) (c : string) :
  count_label c f = 1%nat ->
  Forall (fun r => is_num (snd r c) = true) (rows f) ->
  column_sum f c = Ok (total (column c f)).
Proof.
  intros Hc Hn. unfold column_sum. rewrite (getitem_present _ _ Hc). cbn [bind].
  apply sum_series_total. apply Forall_map. exact Hn.
Qed.

(** ** The Month column *)

Lemma assign_rows_from (c c' : string) (g : Cell -> Cell) (rs : list (nat * Row)) :
  assign_rows rs c (map g (map (fun r => snd r c') rs)) =
  map (fun r => (fst r, upd (snd r) c (g (snd r c')))) rs.
Proof.
  induction rs as [|r rs IH]; simpl; [reflexivity|].
  now rewrite IH.
Qed.

Lemma count_filter_app (c x : string) (l : list string) :
  List.length (filter (String.eqb c) (l ++ [x])) =
  (List.length (filter (String.eqb c) l) + if String.eqb c x then 1 else 0)%nat.
Proof.
  rewrite filter_app, length_app. simpl.
  now destruct (String.eqb c x).
Qed.

Lemma count_label_setitem_same (df : Frame) (c : string) (s : Series) :
  (count_label c df <= 1)%nat -> count_label c (setitem df c s) = 1%nat.
Proof.
  unfold count_label at 2, setitem; cbn [columns].
  destruct (count_label c df) as [|n] eqn:E; intros H.
  - rewrite count_filter_app, String.eqb_refl.
    unfold count_label in E. rewrite E. reflexivity.
  - unfold count_label in E. rewrite E. lia.
Qed.

Lemma count_label_setitem_other (df : Frame) (c c' : string) (s : Series) :
  c' <> c -> count_label c' (setitem df c s) = count_label c' df.
Proof.
  intros Hne. unfold count_label at 1. unfold setitem; cbn [columns].
  destruct (count_label c df); [|reflexivity].
  rewrite count_filter_app. unfold count_label.
  destruct (String.eqb_spec c' c); [contradiction|lia].
Qed.

Lemma count_label_le_1 (df : Frame) (c : string) :
  NoDup (columns df) -> (count_label c df <= 1)%nat.
Proof.
  intros Hnd. destruct (in_dec string_dec c (columns df)) as [Hin|Hin].
  - rewrite (count_label_NoDup c df Hnd Hin). lia.
  - destruct (count_label c df) eqn:E; [lia|].
    exfalso. apply Hin. apply count_label_In. congruence.
Qed.

Lemma with_month_rows (f : Frame) :
  rows (with_month f) =
  map (fun r => (fst r, upd (snd r) "Month" (month_of (snd r "Date")))) (rows f).
Proof. unfold with_month, column, setitem; cbn [rows]. apply assign_rows_from. Qed.

Lemma add_month_dataset (V : Frame) :
  Dataset V -> add_month V = Ok (with_month V).
Proof.
  intros D. unfold add_month.
  rewrite (getitem_present V "Date")
    by (apply (required_present V "Date" D); simpl; tauto).
  cbn [bind]. rewrite (mapM_total month_cell month_of); [reflexivity|].
  intros c Hc. apply in_map_iff in Hc. destruct Hc as [r [<- Hr]].
  destruct (dataset_row V r D Hr) as (_ & [t ->] & _). reflexivity.
Qed.

Lemma with_month_net (V : Frame) :
  column "Sales_After_Discount" (with_month V) = column "Sales_After_Discount" V.
Proof.
  unfold column. rewrite with_month_rows, map_map. reflexivity.
Qed.

(** ** The aggregates of a view *)

Lemma summarize_dataset (V : Frame) :
  Dataset V ->
  exists cs ps ms,
    summarize V =
    Ok (mkAggregate (total (column "Total_Sale" V))
                    (total (column "Sales_After_Discount" V))
                    (total (column "Units_Sold" V)) cs ps ms,
        with_month V) /\
    (sum_groups cs == total (column "Sales_After_Discount" V))%Q /\
    (sum_groups ps == total (column "Sales_After_Discount" V))%Q /\
    (sum_groups ms == total (column "Sales_After_Discount" V))%Q.
Proof.
  intros D.
  assert (Hreq : forall c, In c required_columns -> count_label c V = 1%nat)
    by (intros c Hc; now apply required_present).
  assert (Hnet : Forall (fun r => is_num (snd r "Sales_After_Discount") = true) (rows V)).
  { apply Forall_forall. intros r Hr.
    destruct (dataset_row V r D Hr) as (_ & _ & [d ->] & _). reflexivity. }
  assert (Hkey : forall c, In c required_columns ->
                           Forall (fun r => snd r c <> NaN) (rows V)).
  { intros c Hc. apply Forall_forall. intros r Hr.
    destruct (dataset_row V r D Hr) as (Hk & _).
    apply (complete_cell _ r c Hk). now apply (ds_required V D). }
  destruct (groupby_sum_total V "Country" "Sales_After_Discount") as [cs [Hcs Ecs]];
    [apply Hreq; simpl; tauto|apply Hreq; simpl; tauto
    |apply Hkey; simpl; tauto|exact Hnet|].
  destruct (groupby_sum_total V "Product" "Sales_After_Discount") as [ps [Hps Eps]];
    [apply Hreq; simpl; tauto|apply Hreq; simpl; tauto
    |apply Hkey; simpl; tauto|exact Hnet|].
  destruct (groupby_sum_total (with_month V) "Month" "Sales_After_Discount")
    as [ms [Hms Ems]].
  - apply count_label_setitem_same, count_label_le_1, D.
  - unfold with_month. rewrite count_label_setitem_other by discriminate.
    apply Hreq; simpl; tauto.
  - rewrite with_month_rows. apply Forall_map, Forall_forall.
    intros r _. cbn [snd]. unfold upd. simpl.
    unfold month_of. destruct (snd r "Date"); discriminate.
  - rewrite with_month_rows. apply Forall_map, Forall_forall.
    intros r Hr. rewrite Forall_forall in Hnet. exact (Hnet r Hr).
  - exists cs, ps, ms. split; [|split; [exact Ecs|split; [exact Eps|]]].
    + unfold summarize.
      rewrite (column_sum_total V "Total_Sale").
      2: { apply Hreq; simpl; tauto. }
      2: { apply Forall_forall. intros r Hr.
           destruct (dataset_row V r D Hr) as (_ & _ & _ & [d ->] & _). reflexivity. }
      rewrite (column_sum_total V "Sales_After_Discount");
        [|apply Hreq; simpl; tauto|exact Hnet].
      rewrite (column_sum_total V "Units_Sold").
      2: { apply Hreq; simpl; tauto. }
      2: { apply Forall_forall. intros r Hr.
           destruct (dataset_row V r D Hr) as (_ & _ & _ & _ & [d ->]). reflexivity. }
      cbn [bind]. rewrite Hcs, Hps. cbn [bind].
      rewrite (add_month_dataset V D). cbn [bind]. rewrite Hms. reflexivity.
    + rewrite Ems, with_month_net. reflexivity.
Qed.


Lemma column_sum_empty (f : Frame) (c : string) :
  count_label c f = 1%nat -> rows f = [] -> column_sum f c = Ok 0%Q.
Proof.
  intros Hc He. unfold column_sum. rewrite (getitem_present _ _ Hc), He.
  reflexivity.
Qed.

Lemma groupby_sum_empty (f : Frame) (key val : string) :
  count_label key f = 1%nat -> count_label val f = 1%nat -> rows f = [] ->
  groupby_sum f key val = Ok [].
Proof.
  intros Hk Hv He. unfold groupby_sum.
  rewrite (getitem_present _ _ Hk), (getitem_present _ _ Hv), He.
  reflexivity.
Qed.

(** C6. On an empty view the aggregates are returned, not an error: the
    three sums are zero and the three grouped mappings are empty. *)
Theorem summarize_empty_view (V : Frame) :
  Dataset V ->
  rows V = [] ->
  summarize V = Ok (mkAggregate 0 0 0 [] [] [], with_month V).
Proof.
  intros D He.
  assert (Hreq : forall c, In c required_columns -> count_label c V = 1%nat)
    by (intros c Hc; now apply required_present).
  unfold summarize.
  rewrite !column_sum_empty by (try exact He; apply Hreq; simpl; tauto).
  cbn [bind].
  rewrite !(groupby_sum_empty V) by (try exact He; apply Hreq; simpl; tauto).
  cbn [bind].
  rewrite (add_month_dataset V D). cbn [bind].
  rewrite groupby_sum_empty; [reflexivity| | |].
  - apply count_label_setitem_same, count_label_le_1, D.
  - unfold with_month. rewrite count_label_setitem_other by discriminate.
    apply Hreq; simpl; tauto.
  - rewrite with_month_rows, He. reflexivity.
Qed.

(** ** The script over the store *)

Open Scope list_scope.

Lemma nth_error_last {A} (l : list A) (x : A) :
  nth_error (l ++ [x]) (List.length l) = Some x.
Proof.
  rewrite nth_error_app2 by lia. now rewrite Nat.sub_diag.
Qed.

Lemma replace_nth_last {A} (l : list A) (x y : A) :
  replace_nth (List.length l) y (l ++ [x]) = l ++ [y].
Proof.
  induction l as [|z l IH]; simpl; [reflexivity|]. now rewrite IH.
Qed.

Lemma nth_error_extended {A} (l extra : list A) (n : nat) (x : A) :
  nth_error l n = Some x -> nth_error (l ++ extra) n = Some x.
Proof.
  intros H. rewrite nth_error_app1; [exact H|].
  apply nth_error_Some. congruence.
Qed.

Lemma rebind_filtered_run (op : Frame -> result Frame) (h : list Frame)
      (d : nat) (f : Frame) :
  rebind_filtered op (mkStore (h ++ [f]) d (Some (List.length h))) =
  match op f with
  | Ok f' => Ok (tt, mkStore ((h ++ [f]) ++ [f']) d (Some (List.length (h ++ [f]))))
  | Raise e => Raise e
  end.
Proof.
  unfold rebind_filtered, bindM, read_filtered_df, deref, lift, new_object,
    bind_filtered_df; cbn [heap var_df var_filtered_df].
  rewrite nth_error_last. now destruct (op f).
Qed.

Lemma with_filtered_run {A} (op : Frame -> result A) (h : list Frame)
      (d : nat) (f : Frame) :
  with_filtered op (mkStore (h ++ [f]) d (Some (List.length h))) =
  match op f with
  | Ok a => Ok (a, mkStore (h ++ [f]) d (Some (List.length h)))
  | Raise e => Raise e
  end.
Proof.
  unfold with_filtered, bindM, read_filtered_df, deref, lift;
    cbn [heap var_df var_filtered_df].
  rewrite nth_error_last. now destruct (op f).
Qed.

(** Lines 57-68 over the store compute [filter_view] of the frame [df]
    refers to, in a new object; no existing object is written. *)
Lemma filter_stage_run (cr : Criteria) (s : Store) (D V : Frame) :
  frame_at s (var_df s) = Some D ->
  filter_view D cr = Ok V ->
  exists extra,
    filter_stage cr s =
    Ok (tt, mkStore ((heap s ++ extra) ++ [V]) (var_df s)
                    (Some (List.length (heap s ++ extra)))).
Proof.
  destruct s as [h d fv]. unfold frame_at; cbn [heap var_df]. intros HD HV.
  unfold filter_view in HV.
  unfold filter_stage, bindM at 1 2 3 4, read_df, deref, new_object, bind_filtered_df;
    cbn [heap var_df var_filtered_df]. rewrite HD.
  unfold bindM at 1. rewrite rebind_filtered_run.
  destruct (date_filter D cr) as [V1|e]; cbn [bind] in HV; [|discriminate].
  unfold bindM at 1.
  destruct (truthy (country_filter cr)).
  - rewrite rebind_filtered_run.
    destruct (isin_filter V1 "Country" (country_filter cr)) as [V2|e];
      cbn [bind] in HV; [|discriminate].
    destruct (truthy (product_filter cr)).
    + rewrite rebind_filtered_run.
      destruct (isin_filter V2 "Product" (product_filter cr)) as [V3|e];
        cbn [bind] in HV; [|discriminate].
      inversion HV; subst. exists [D; V1; V2].
      now rewrite <- !app_assoc.
    + cbn [bind] in HV. inversion HV; subst. exists [D; V1].
      unfold ret. now rewrite <- !app_assoc.
  - cbn [bind] in HV. unfold ret.
    destruct (truthy (product_filter cr)).
    + rewrite rebind_filtered_run.
      destruct (isin_filter V1 "Product" (product_filter cr)) as [V3|e];
        cbn [bind] in HV; [|discriminate].
      inversion HV; subst. exists [D; V1].
      now rewrite <- !app_assoc.
    + cbn [bind] in HV. inversion HV; subst. exists [D].
      now rewrite <- !app_assoc.
Qed.

(** Lines 73-116 over the store compute [summarize] of the frame
    [filtered_df] refers to, and write the Month column into that object
    only. *)
Lemma aggregate_stage_run (h : list Frame) (d : nat) (V V' : Frame)
      (a : AggregateResult) :
  summarize V = Ok (a, V') ->
  aggregate_stage (mkStore (h ++ [V]) d (Some (List.length h))) =
  Ok (a, mkStore (h ++ [V']) d (Some (List.length h))).
Proof.
  unfold summarize, aggregate_stage. intros H.
  repeat (unfold bindM at 1; rewrite with_filtered_run;
          match type of H with
          | bind ?c _ = _ => destruct c; cbn [bind] in H; [|discriminate]
          end).
  unfold bindM at 1 2 3 4, read_filtered_df, deref, lift, mutate;
    cbn [heap var_df var_filtered_df].
  rewrite nth_error_last.
  destruct (add_month V) as [V1|e]; cbn [bind] in H; [|discriminate].
  cbn [heap var_df var_filtered_df]. rewrite replace_nth_last.
  unfold bindM at 1; rewrite with_filtered_run.
  destruct (groupby_sum V1 "Month" "Sales_After_Discount"); cbn [bind] in H;
    [|discriminate].
  inversion H; subst. reflexivity.
Qed.

Lemma dashboard_run (cr : Criteria) (s : Store) (D V V' : Frame)
      (a : AggregateResult) :
  frame_at s (var_df s) = Some D ->
  filter_view D cr = Ok V ->
  summarize V = Ok (a, V') ->
  exists extra,
    dashboard cr s =
    Ok ((a, to_csv V'),
        mkStore ((heap s ++ extra) ++ [V']) (var_df s)
                (Some (List.length (heap s ++ extra)))).
Proof.
  intros HD HV HS.
  destruct (filter_stage_run cr s D V HD HV) as [extra E].
  exists extra. unfold dashboard. unfold bindM at 1. rewrite E.
  unfold bindM at 1. rewrite (aggregate_stage_run _ _ V V' a HS).
  unfold bindM at 1. rewrite with_filtered_run. reflexivity.
Qed.

(** C9. Running lines 57-138 leaves every frame object that existed
    before, the loaded dataset among them, as it was (same frame: same
    rows, cells and order); [filtered_df] ends up referring to a new object,
    the view with its Month column; and running the lines again from the
    resulting store gives the same aggregates, the same export and the same
    view. *)
Theorem dashboard_leaves_dataset_unchanged (cr : Criteria) (s : Store) (D : Frame) :
  frame_at s (var_df s) = Some D ->
  Dataset D ->
  exists out s1 V,
    dashboard cr s = Ok (out, s1) /\
    var_df s1 = var_df s /\
    frame_at s1 (var_df s1) = Some D /\
    (forall l f, frame_at s l = Some f -> frame_at s1 l = Some f) /\
    filter_view D cr = Ok V /\
    filtered_frame s1 = Some (with_month V) /\
    exists s2,
      dashboard cr s1 = Ok (out, s2) /\
      frame_at s2 (var_df s2) = Some D /\
      filtered_frame s2 = filtered_frame s1.
Proof.
  intros HD DD.
  pose proof (filter_view_rows D cr DD) as HV.
  destruct (summarize_dataset _ (Dataset_restrict (passes cr) D DD))
    as (cs & ps & ms & HS & _).
  destruct (dashboard_run cr s D _ _ _ HD HV HS) as [extra E].
  set (s1 := mkStore ((heap s ++ extra) ++ [with_month (restrict (passes cr) D)])
                     (var_df s) (Some (List.length (heap s ++ extra)))) in *.
  assert (Hkeep : forall l f, frame_at s l = Some f -> frame_at s1 l = Some f).
  { intros l f Hl. unfold frame_at, s1; cbn [heap].
    rewrite <- app_assoc. now apply nth_error_extended. }
  assert (HD1 : frame_at s1 (var_df s1) = Some D) by (apply Hkeep; exact HD).
  destruct (dashboard_run cr s1 D _ _ _ HD1 HV HS) as [extra' E'].
  eexists _, s1, _.
  split; [exact E|]. split; [reflexivity|]. split; [exact HD1|].
  split; [exact Hkeep|]. split; [exact HV|]. split.
  - unfold filtered_frame, frame_at, s1; cbn [heap var_filtered_df].
    apply nth_error_last.
  - eexists. split; [exact E'|]. split.
    + unfold frame_at; cbn [heap var_df].
      rewrite <- app_assoc. now apply nth_error_extended.
    + unfold filtered_frame, frame_at, s1; cbn [heap var_filtered_df].
      rewrite !nth_error_last. reflexivity.
Qed.

(** ** The date bounds *)

Lemma ns_per_day_pos : 0 < ns_per_day.
Proof. reflexivity. Qed.

(** In terms of calendar days the test of lines 59-62 keeps a record
    dated on the end date only at midnight. *)
Lemma passes_date_calendar (cr : Criteria) (r : Row) (t : Timestamp) :
  r "Date" = Stamp t ->
  passes_date cr r = true <->
  start_date cr <= date_of t /\
  (date_of t < end_date cr \/ t = to_datetime_date (end_date cr)).
Proof.
  intros E. unfold passes_date. rewrite E.
  rewrite andb_true_iff, !Z.leb_le.
  unfold to_datetime_date, date_of.
  pose proof ns_per_day_pos as Hp.
  pose proof (Z.div_mod t ns_per_day ltac:(lia)) as Hdm.
  pose proof (Z.mod_pos_bound t ns_per_day Hp) as Hm.
  set (q := t / ns_per_day) in *. set (m := t mod ns_per_day) in *.
  set (n := ns_per_day) in *. split.
  - intros [H1 H2]. split; [nia|].
    destruct (Z_lt_le_dec q (end_date cr)); [now left|right; nia].
  - intros [H1 [H2| ->]]; split; try nia.
Qed.

(** For a record without a time of day both bounds are inclusive calendar
    dates. *)
Lemma passes_date_midnight (cr : Criteria) (r : Row) (d : Date) :
  r "Date" = Stamp (to_datetime_date d) ->
  passes_date cr r = true <-> start_date cr <= d <= end_date cr.
Proof.
  intros E. unfold passes_date. rewrite E.
  rewrite andb_true_iff, !Z.leb_le. unfold to_datetime_date.
  pose proof ns_per_day_pos. nia.
Qed.

(** C5, on the code.  A sale dated 31 January 2024 at 14:30 is loaded, its
    calendar date lies within the period 1 to 31 January, and the filter
    for that period returns the empty view: the comparison is made on
    timestamps, against midnight of the end date. *)
Theorem end_date_afternoon_excluded :
  exists ds r V,
    @load_data dmy_parser sample_timed = Ok ds /\
    rows ds = [(0%nat, r)] /\
    r "Date" = Stamp afternoon /\
    start_date january <= date_of afternoon <= end_date january /\
    filter_view ds january = Ok V /\
    rows V = [].
Proof.
  eexists _, _, _. split; [vm_compute; reflexivity|].
  split; [reflexivity|]. split; [reflexivity|].
  split; [vm_compute; split; discriminate|].
  split; [vm_compute; reflexivity|reflexivity].
Qed.

(** ** Currency texts *)

Lemma str_replace_empty (a : ascii) (s : string) :
  str_replace a "" s = without a s.
Proof.
  induction s as [|c s IH]; simpl; [reflexivity|].
  rewrite IH. now destruct (Ascii.eqb c a).
Qed.

Lemma occurs_without (a b : ascii) (s : string) :
  occurs a (without b s) = (occurs a s && negb (Ascii.eqb a b))%bool.
Proof.
  induction s as [|c s IH]; simpl; [reflexivity|].
  destruct (Ascii.eqb_spec c b) as [->|Hcb].
  - rewrite IH. destruct (Ascii.eqb_spec b a) as [->|Hba].
    + rewrite Ascii.eqb_refl. simpl. now rewrite andb_false_r.
    + simpl. reflexivity.
  - simpl. rewrite IH. destruct (Ascii.eqb_spec c a) as [->|Hca].
    + simpl. destruct (Ascii.eqb_spec a b); [congruence|reflexivity].
    + reflexivity.
Qed.

Lemma clean_currency_without (s : string) :
  clean_currency s = without "," (without "$" s).
Proof. unfold clean_currency. now rewrite !str_replace_empty. Qed.

(** *** Numeric cells survive the currency lines *)

Open Scope string_scope.
Open Scope Z_scope.

Lemma string_append_assoc (a b c : string) : (a ++ b) ++ c = a ++ (b ++ c).
Proof. induction a as [|x a IH]; simpl; [reflexivity|now rewrite IH]. Qed.

Lemma string_append_empty (a : string) : a ++ "" = a.
Proof. induction a as [|x a IH]; simpl; [reflexivity|now rewrite IH]. Qed.

Lemma digit_of_digit_char (v : Z) : digit_of (digit_char v) = Some (v mod 10).
Proof.
  unfold digit_char. pose proof (Z.mod_pos_bound v 10 ltac:(lia)) as H.
  remember (v mod 10) as m eqn:Em. clear Em.
  assert (E : m = 0 \/ m = 1 \/ m = 2 \/ m = 3 \/ m = 4 \/ m = 5 \/ m = 6 \/
              m = 7 \/ m = 8 \/ m = 9) by lia.
  repeat (destruct E as [->|E]; [reflexivity|]). subst. reflexivity.
Qed.

Lemma read_digits_fixed (n : nat) (v : Z) (rest : string) (acc : Z) (k : nat) :
  read_digits (digits_fixed n v ++ rest) acc k =
  read_digits rest (acc * 10 ^ Z.of_nat n + v mod 10 ^ Z.of_nat n) (k + n).
Proof.
  revert v rest acc k. induction n as [|n IH]; intros v rest acc k.
  - simpl. rewrite Z.mod_1_r, Nat.add_0_r. f_equal. lia.
  - cbn [digits_fixed]. rewrite string_append_assoc, IH. cbn [append read_digits].
    rewrite digit_of_digit_char. f_equal; [|lia].
    rewrite Nat2Z.inj_succ, Z.pow_succ_r by lia.
    rewrite (Z.rem_mul_r v 10 (10 ^ Z.of_nat n)) by lia. ring.
Qed.

Lemma width_upto_bound (fuel : nat) (v : Z) :
  0 <= v < 2 ^ Z.of_nat (S fuel) -> v < 10 ^ Z.of_nat (width_upto fuel v).
Proof.
  revert v. induction fuel as [|f IH]; intros v [H0 H1].
  - simpl in *. lia.
  - cbn [width_upto]. destruct (Z.ltb_spec v 10) as [Hlt|Hge]; [simpl; lia|].
    rewrite Nat2Z.inj_succ, Z.pow_succ_r by lia.
    assert (Hq : v / 10 < 10 ^ Z.of_nat (width_upto f (v / 10))).
    { apply IH. split; [apply Z.div_pos; lia|].
      rewrite Nat2Z.inj_succ, Z.pow_succ_r in H1 by lia.
      apply Z.div_lt_upper_bound; lia. }
    pose proof (Z.div_mod v 10 ltac:(lia)). pose proof (Z.mod_pos_bound v 10 ltac:(lia)).
    lia.
Qed.

Lemma width_bound (v : Z) : 0 <= v -> v < 10 ^ Z.of_nat (width v).
Proof.
  intros H. unfold width. apply width_upto_bound. split; [exact H|].
  destruct (Z.eq_dec v 0) as [->|Hne]; [simpl; lia|].
  rewrite Nat2Z.inj_succ, Z2Nat.id by apply Z.log2_nonneg.
  apply Z.log2_spec. lia.
Qed.

Lemma occurs_append (a : ascii) (s t : string) :
  occurs a (s ++ t) = (occurs a s || occurs a t)%bool.
Proof.
  induction s as [|c s IH]; simpl; [reflexivity|].
  rewrite IH. now rewrite orb_assoc.
Qed.

Lemma without_absent (a : ascii) (s : string) :
  occurs a s = false -> without a s = s.
Proof.
  induction s as [|c s IH]; simpl; [reflexivity|].
  intros H. apply orb_false_elim in H. destruct H as [Hc Hs].
  rewrite Hc, IH by exact Hs. reflexivity.
Qed.

Lemma occurs_digits (a : ascii) (n : nat) (v : Z) :
  digit_of a = None -> occurs a (digits_fixed n v) = false.
Proof.
  intros Ha. revert v. induction n as [|n IH]; intros v; [reflexivity|].
  cbn [digits_fixed]. rewrite occurs_append, IH. cbn [occurs orb].
  destruct (Ascii.eqb_spec (digit_char v) a) as [E|_]; [|reflexivity].
  rewrite <- E, digit_of_digit_char in Ha. discriminate.
Qed.

Lemma occurs_rendered (a : ascii) (d : Decimal) :
  digit_of a = None -> Ascii.eqb "-" a = false -> Ascii.eqb "." a = false ->
  occurs a (render_decimal d) = false.
Proof.
  intros Ha Hm Hp. unfold render_decimal.
  rewrite !occurs_append, occurs_digits by exact Ha.
  destruct (mant d <? 0); destruct (scale d); cbn [occurs append orb];
    rewrite ?Hm, ?Hp, ?occurs_digits by exact Ha; reflexivity.
Qed.

Lemma split_sign_digit (c : ascii) (r : string) (x : Z) :
  digit_of c = Some x -> split_sign (String c r) = (false, String c r).
Proof.
  destruct c as [[] [] [] [] [] [] [] []]; try discriminate; reflexivity.
Qed.

Lemma digits_fixed_head (n : nat) (v : Z) (rest : string) :
  exists c r, digits_fixed (S n) v ++ rest = String c r /\ digit_of c <> None.
Proof.
  revert v rest. induction n as [|n IH]; intros v rest.
  - exists (digit_char v), rest. split; [reflexivity|].
    rewrite digit_of_digit_char. discriminate.
  - change (digits_fixed (S (S n)) v)
      with (digits_fixed (S n) (v / 10) ++ String (digit_char v) "").
    rewrite string_append_assoc. apply IH.
Qed.

Lemma width_pos (v : Z) : exists n, width v = S n.
Proof.
  unfold width. destruct (Z.to_nat (Z.log2 v)); simpl; [eauto|].
  destruct (v <? 10); eauto.
Qed.

Lemma read_unsigned (a : Z) (s : nat) (neg : bool) :
  0 <= a ->
  parse_unsigned neg
    (digits_fixed (width (a / 10 ^ Z.of_nat s)) (a / 10 ^ Z.of_nat s) ++
     match s with
     | O => ""
     | S _ => "." ++ digits_fixed s (a mod 10 ^ Z.of_nat s)
     end) = Some (mkDec (signed neg a) s).
Proof.
  intros Ha. unfold parse_unsigned. set (p := 10 ^ Z.of_nat s).
  assert (Hp : 0 < p) by (apply Z.pow_pos_nonneg; lia).
  assert (Hq : 0 <= a / p) by (apply Z.div_pos; lia).
  rewrite read_digits_fixed.
  rewrite (Z.mod_small (a / p)) by (split; [exact Hq|now apply width_bound]).
  destruct (width_pos (a / p)) as [w Hw]. rewrite Hw.
  destruct s as [|s].
  - cbn [read_digits Nat.add Nat.eqb]. subst p.
    change (10 ^ Z.of_nat 0) with 1. now rewrite Z.div_1_r.
  - cbn [append read_digits]. change (digit_of ".") with (@None Z). cbv iota.
    rewrite <- (string_append_empty (digits_fixed (S s) (a mod p))).
    rewrite read_digits_fixed. cbn [read_digits].
    fold p. rewrite (Z.mod_small (a mod p)) by (apply Z.mod_pos_bound; exact Hp).
    cbn [Nat.add Nat.eqb]. do 2 f_equal.
    pose proof (Z.div_mod a p ltac:(lia)). f_equal. lia.
Qed.

Lemma to_numeric_rendered (d : Decimal) : to_numeric_str (render_decimal d) = Some d.
Proof.
  destruct d as [m s].
  pose proof (read_unsigned (Z.abs m) s) as H.
  remember (digits_fixed (width (Z.abs m / 10 ^ Z.of_nat s))
                         (Z.abs m / 10 ^ Z.of_nat s) ++
            match s with
            | O => ""
            | S _ => "." ++ digits_fixed s (Z.abs m mod 10 ^ Z.of_nat s)
            end) as body eqn:Eb.
  assert (R : render_decimal (mkDec m s) = (if m <? 0 then "-" else "") ++ body)
    by (rewrite Eb; reflexivity).
  rewrite R. unfold to_numeric_str.
  destruct (Z.ltb_spec m 0) as [Hneg|Hpos].
  - change ("-" ++ body) with (String "-" body). cbn [split_sign].
    rewrite (H true (Z.abs_nonneg m)). unfold signed. do 2 f_equal. lia.
  - change ("" ++ body) with body.
    assert (Hs : split_sign body = (false, body)).
    { rewrite Eb. destruct (width_pos (Z.abs m / 10 ^ Z.of_nat s)) as [w ->].
      destruct (digits_fixed_head w (Z.abs m / 10 ^ Z.of_nat s)
                  (match s with
                   | O => ""
                   | S _ => "." ++ digits_fixed s (Z.abs m mod 10 ^ Z.of_nat s)
                   end)) as (c & r & -> & Hc).
      destruct (digit_of c) as [x|] eqn:Ed; [|congruence].
      exact (split_sign_digit c r x Ed). }
    rewrite Hs, (H false (Z.abs_nonneg m)). unfold signed. do 2 f_equal. lia.
Qed.

(** A numeric cell of the spreadsheet comes out of lines 24-30 as it
    went in. *)
Lemma currency_value_num (d : Decimal) : currency_value (Num d) = Some d.
Proof.
  unfold currency_value, astype_str, clean_currency.
  rewrite !str_replace_empty.
  rewrite (without_absent "$") by (now apply occurs_rendered).
  rewrite (without_absent ",") by (now apply occurs_rendered).
  apply to_numeric_rendered.
Qed.

(** C10. Cleaning removes every '$' and every ',' of a currency text,
    wherever they stand, and keeps the other characters in order; so
    "1,2,3" is read as 123 and "12,34" as 1234, and a row holding such a
    text in a currency column is kept (when its other fields are in order)
    with that number in the column. *)
Theorem currency_cleaning_removes_every_separator `{P : DatetimeParser} :
  (forall s, clean_currency s = without "," (without "$" s)) /\
  (forall s, occurs "$" (clean_currency s) = false /\
             occurs "," (clean_currency s) = false) /\
  currency_value (Str "1,2,3") = Some (mkDec 123 0) /\
  currency_value (Str "12,34") = Some (mkDec 1234 0) /\
  (forall raw ds i r c,
      load_data raw = Ok ds ->
      In (i, r) (rows (stripped raw)) ->
      In c currency_columns ->
      r c = Str "1,2,3" \/ r c = Str "12,34" ->
      (forall c', In c' currency_columns -> c' <> c -> currency_value (r c') <> None) ->
      parses_date (r "Date") ->
      other_fields_present (columns ds) r ->
      exists r', In (i, r') (rows ds) /\
                 (r c = Str "1,2,3" -> r' c = Num (mkDec 123 0)) /\
                 (r c = Str "12,34" -> r' c = Num (mkDec 1234 0))).
Proof.
  split; [exact clean_currency_without|].
  split.
  { intros s. rewrite clean_currency_without, !occurs_without. simpl.
    now rewrite !andb_false_r. }
  split; [reflexivity|]. split; [reflexivity|].
  intros raw ds i r c H Hin Hc Htext Hrest Hd Ho.
  assert (Hcur : forall c', In c' currency_columns -> currency_value (r c') <> None).
  { intros c' Hc'. destruct (string_dec c' c) as [->|Hne]; [|now apply Hrest].
    destruct Htext as [-> | ->]; discriminate. }
  exists (snd (clean_row (i, r))). split.
  - exact (loaded_row_kept raw ds i r H Hin Hcur Hd Ho).
  - rewrite (clean_row_currency (i, r) c Hc). cbn [snd].
    split; intros E; rewrite E; reflexivity.
Qed.

(** ** What a missing column does *)






Lemma count_label_header (c : string) (a b : Frame) :
  columns a = columns b -> count_label c a = count_label c b.
Proof. unfold count_label. now intros ->. Qed.

Lemma row_loaded_cells (cols : list string) (r : nat * Row) :
  row_loaded cols r = true ->
  is_stamp (snd r "Date") = true /\
  (forall c, In c currency_columns -> is_num (snd r c) = true).
Proof.
  unfold row_loaded. intros H.
  apply andb_prop in H. destruct H as [H Hn].
  apply andb_prop in H. destruct H as [_ Hs].
  split; [exact Hs|]. now apply forallb_forall.
Qed.

Section MissingColumn.
Context `{P : DatetimeParser}.

Lemma loaded_loader_labels (raw ds : Frame) (c : string) :
  load_data raw = Ok ds -> In c loader_columns -> count_label c ds = 1%nat.
Proof.
  intros H Hc. pose proof (loaded_columns raw ds H) as (Hcols & _).
  rewrite (count_label_header c ds (stripped raw) Hcols).
  apply load_data_ok_iff in H. destruct H as (Hl & _).
  exact (proj1 (first_bad_label_none _) Hl c Hc).
Qed.


End MissingColumn.


(** C3, on the code.  The table whose second row has the Date text
    "not a date" is not loaded: [pd.to_datetime] raises, and no frame is
    returned, although the first row is well formed. *)
Theorem unreadable_date_stops_load :
  @load_data dmy_parser sample_bad_date = Raise ValueError.
Proof. vm_compute. reflexivity. Qed.

(** ** The sample tables through the pipeline *)

Lemma sample_dataset_loaded :
  @load_data dmy_parser sample_raw = Ok sample_dataset.
Proof. vm_compute. reflexivity. Defined.

Lemma sample_dataset_ok : Dataset sample_dataset.
Proof. apply datasetb_sound. vm_compute. reflexivity. Defined.




Lemma summarize_empty_view_witness :
  Dataset (restrict (passes nothing_sold) sample_dataset) /\
  filter_view sample_dataset nothing_sold =
    Ok (restrict (passes nothing_sold) sample_dataset) /\
  rows (restrict (passes nothing_sold) sample_dataset) = [] /\
  summarize (restrict (passes nothing_sold) sample_dataset) =
    Ok (mkAggregate 0 0 0 [] [] [],
        with_month (restrict (passes nothing_sold) sample_dataset)).
Proof.
  assert (D : Dataset (restrict (passes nothing_sold) sample_dataset))
    by (apply datasetb_sound; vm_compute; reflexivity).
  split; [exact D|]. split; [vm_compute; reflexivity|].
  split; [reflexivity|].
  exact (summarize_empty_view _ D eq_refl).
Defined.


Lemma dashboard_leaves_dataset_unchanged_witness :
  frame_at sample_store (var_df sample_store) = Some sample_dataset /\
  exists out s1 V,
    dashboard us_only sample_store = Ok (out, s1) /\
    var_df s1 = var_df sample_store /\
    frame_at s1 (var_df s1) = Some sample_dataset /\
    (forall l f, frame_at sample_store l = Some f -> frame_at s1 l = Some f) /\
    filter_view sample_dataset us_only = Ok V /\
    filtered_frame s1 = Some (with_month V) /\
    exists s2,
      dashboard us_only s1 = Ok (out, s2) /\
      frame_at s2 (var_df s2) = Some sample_dataset /\
      filtered_frame s2 = filtered_frame s1.
Proof.
  split; [reflexivity|].
  exact (dashboard_leaves_dataset_unchanged us_only sample_store sample_dataset
           eq_refl sample_dataset_ok).
Defined.

Lemma currency_cleaning_removes_every_separator_witness :
  exists r', In (2%nat, r') (rows sample_dataset) /\
             r' "Unit_Price" = Num (mkDec 123 0).
Proof.
  destruct (@currency_cleaning_removes_every_separator dmy_parser)
    as (_ & _ & _ & _ & Hkeep).
  destruct (Hkeep sample_raw sample_dataset 2%nat
              (snd (nth 2 (rows (stripped sample_raw)) (0%nat, fun _ => NaN)))
              "Unit_Price" sample_dataset_loaded) as (r' & Hin & H123 & _).
  - simpl. do 2 right. left. reflexivity.
  - simpl. tauto.
  - left. reflexivity.
  - intros c [<-|[<-|[<-|[]]]] Hne; try congruence; vm_compute; discriminate.
  - eexists. vm_compute. reflexivity.
  - intros k Hk Hn. simpl in Hk.
    repeat (destruct Hk as [<-|Hk];
            [try (vm_compute; discriminate); exfalso; apply Hn; simpl; tauto|]).
    contradiction.
  - exists r'. split; [exact Hin|]. apply H123. reflexivity.
Defined.

(** The example of the spec: the US rows of the sample, their net revenue
    and the by-product and by-month totals. *)
Example summarize_us_only :
  exists V a V',
    filter_view sample_dataset us_only = Ok V /\
    summarize V = Ok (a, V') /\
    map fst (rows V) = [0; 1]%nat /\
    Qred (total_after_discount a) = 130%Q /\
    map (fun kv => (fst kv, Qred (snd kv))) (product_sales a) =
      [(Str "Gadget", 40%Q); (Str "Widget", 90%Q)] /\
    map (fun kv => (fst kv, Qred (snd kv))) (monthly_sales a) =
      [(Str "2024-01", 130%Q)].
Proof.
  eexists _, _, _. split; [vm_compute; reflexivity|].
  split; [vm_compute; reflexivity|].
  repeat split; vm_compute; reflexivity.
Qed.

(** * Further properties of the script *)

Open Scope list_scope.

(** ** The loader *)








(** X4. A numeric cell in a currency column goes through lines 24-30
    unchanged: written as text, stripped of '$' and ',' and read back it is
    the same number. *)
Theorem numeric_cell_unchanged_by_currency_lines (d : Decimal) :
  to_numeric_cell (clean_text_cell (Num d)) = Num d.
Proof.
  rewrite currency_cell_cleaned, currency_value_num. reflexivity.
Qed.

(** *** Cleaning a cleaned table *)

Lemma rstrip_idempotent (s : string) : rstrip (rstrip s) = rstrip s.
Proof.
  induction s as [|c s IH]; [reflexivity|].
  cbn [rstrip]. destruct (rstrip s) as [|a b] eqn:E.
  - destruct (is_space c) eqn:Ec; [reflexivity|].
    cbn [rstrip]. now rewrite Ec.
  - change (rstrip (String c (String a b)))
      with (match rstrip (String a b) with
            | EmptyString => if is_space c then EmptyString else String c EmptyString
            | String x y => String c (String x y)
            end).
    rewrite IH. reflexivity.
Qed.

Lemma lstrip_head_clean (s : string) : head_clean (lstrip s) = true.
Proof.
  induction s as [|c s IH]; [reflexivity|].
  cbn [lstrip]. destruct (is_space c) eqn:Ec; [exact IH|].
  simpl. now rewrite Ec.
Qed.

Lemma rstrip_head_clean (s : string) :
  head_clean s = true -> head_clean (rstrip s) = true.
Proof.
  destruct s as [|c s]; [reflexivity|]. cbn [rstrip head_clean]. intros Hc.
  destruct (rstrip s); [|exact Hc].
  destruct (is_space c) eqn:Ec; [reflexivity|].
  cbn [head_clean]. now rewrite Ec.
Qed.

Lemma lstrip_clean (s : string) : head_clean s = true -> lstrip s = s.
Proof.
  destruct s as [|c s]; [reflexivity|]. cbn [head_clean lstrip].
  now destruct (is_space c).
Qed.

Lemma strip_idempotent (s : string) : strip (strip s) = strip s.
Proof.
  unfold strip.
  rewrite (lstrip_clean (rstrip (lstrip s)))
    by apply rstrip_head_clean, lstrip_head_clean.
  apply rstrip_idempotent.
Qed.

Lemma relabel_same (cols : list string) (r : Row) (k : string) :
  In k cols -> relabel_row cols cols r k = r k.
Proof.
  induction cols as [|o cols IH]; simpl; [tauto|].
  intros Hk. destruct (String.eqb_spec k o) as [->|Hne]; [reflexivity|].
  apply IH. destruct Hk as [Hk|Hk]; [congruence|exact Hk].
Qed.

Lemma filter_all {A} (p : A -> bool) (l : list A) :
  (forall x, In x l -> p x = true) -> filter p l = l.
Proof.
  induction l as [|x l IH]; intros H; simpl; [reflexivity|].
  rewrite (H x (or_introl eq_refl)), IH; [reflexivity|].
  intros y Hy. apply H. now right.
Qed.

Lemma Forall2_map_right {A B} (R : A -> B -> Prop) (f : A -> B) (l : list A) :
  (forall x, In x l -> R x (f x)) -> Forall2 R l (map f l).
Proof.
  induction l as [|x l IH]; intros H; simpl; constructor.
  - apply H. now left.
  - apply IH. intros y Hy. apply H. now right.
Qed.

Section Recleaning.
Context `{P : DatetimeParser}.

Lemma stripped_loaded (raw ds : Frame) :
  load_data raw = Ok ds ->
  stripped ds =
  {| columns := columns ds;
     rows := map (fun r => (fst r, relabel_row (columns ds) (columns ds) (snd r)))
                 (rows ds) |}.
Proof.
  intros H. destruct (loaded_columns raw ds H) as (Hc & _).
  assert (E : map strip (columns ds) = columns ds).
  { rewrite Hc. unfold stripped, set_columns; cbn [columns].
    rewrite map_map. apply map_ext. intros a. apply strip_idempotent. }
  unfold stripped, set_columns. now rewrite E.
Qed.

(** The cells of a loaded row come out of the cleaning lines as they
    are. *)
Lemma recleaned_row (cols : list string) (r : nat * Row) :
  (forall c, In c loader_columns -> In c cols) ->
  row_loaded cols r = true ->
  let r' := clean_row (fst r, relabel_row cols cols (snd r)) in
  complete cols r' = true /\
  fst r' = fst r /\
  (forall c, In c cols -> snd r' c = snd r c).
Proof.
  intros Hl Hr r'.
  assert (Hk : complete cols r = true).
  { unfold row_loaded in Hr. apply andb_prop in Hr. destruct Hr as [Hr _].
    apply andb_prop in Hr. tauto. }
  pose proof (row_loaded_cells cols r Hr) as [Hs Hn].
  assert (Hcells : forall c, In c cols -> snd r' c = snd r c).
  { intros c Hc. subst r'.
    destruct (in_dec string_dec c loader_columns) as [Hin|Hout].
    - apply loader_columns_split in Hin. destruct Hin as [Hcur| ->].
      + rewrite (clean_row_currency _ c Hcur). cbn [snd].
        rewrite (relabel_same cols (snd r) c Hc).
        specialize (Hn c Hcur). destruct (snd r c) as [|d|s|t]; try discriminate.
        now rewrite currency_value_num.
      + rewrite clean_row_date. cbn [snd].
        rewrite (relabel_same cols (snd r) "Date" Hc).
        destruct (snd r "Date"); try discriminate. reflexivity.
    - rewrite (clean_row_other _ c Hout). cbn [snd].
      exact (relabel_same cols (snd r) c Hc). }
  split; [|split; [reflexivity|exact Hcells]].
  unfold complete. apply forallb_forall. intros c Hc.
  rewrite (Hcells c Hc). unfold complete in Hk. rewrite forallb_forall in Hk.
  now apply Hk.
Qed.

(** X5. Cleaning is idempotent: the frame [load_data] returns, given to
    [load_data] again, is returned with the same header, the same row
    labels in the same order and the same cell in every column. *)
Theorem load_data_idempotent (raw ds : Frame) :
  load_data raw = Ok ds ->
  exists ds',
    load_data ds = Ok ds' /\
    columns ds' = columns ds /\
    Forall2 (fun r r' => fst r' = fst r /\
                         forall c, In c (columns ds) -> snd r' c = snd r c)
            (rows ds) (rows ds').
Proof.
  intros H. destruct (loaded_columns raw ds H) as (Hc & Hl & _).
  pose proof (loaded_rows raw ds H) as Hrows. rewrite Forall_forall in Hrows.
  pose proof (stripped_loaded raw ds H) as Es.
  assert (Hret : load_data ds = Ok (cleaned (stripped ds))).
  { apply load_data_returns.
    - apply first_bad_label_none. intros c Hin.
      rewrite (count_label_header c (stripped ds) ds) by (now rewrite Es).
      now apply (loaded_loader_labels raw).
    - rewrite Es; cbn [rows]. apply Forall_map, Forall_forall. intros r Hr.
      cbn [snd]. rewrite relabel_same by (apply Hl; simpl; tauto).
      destruct (row_loaded_cells _ r (Hrows r Hr)) as [Hs _].
      destruct (snd r "Date"); try discriminate. reflexivity. }
  exists (cleaned (stripped ds)). split; [exact Hret|].
  unfold cleaned, dropna. rewrite Es; cbn [columns rows].
  split; [reflexivity|].
  rewrite map_map, filter_all.
  - apply Forall2_map_right. intros r Hr.
    destruct (recleaned_row (columns ds) r Hl (Hrows r Hr)) as (_ & Hf & Hcells).
    split; [exact Hf|exact Hcells].
  - intros x Hx. apply in_map_iff in Hx. destruct Hx as [r [<- Hr]].
    now destruct (recleaned_row (columns ds) r Hl (Hrows r Hr)).
Qed.
End Recleaning.

Lemma load_data_idempotent_witness :
  exists ds',
    @load_data dmy_parser sample_dataset = Ok ds' /\
    columns ds' = columns sample_dataset /\
    Forall2 (fun r r' => fst r' = fst r /\
                         forall c, In c (columns sample_dataset) -> snd r' c = snd r c)
            (rows sample_dataset) (rows ds').
Proof.
  exact (@load_data_idempotent dmy_parser sample_raw sample_dataset
           sample_dataset_loaded).
Defined.

(** ** The sidebar *)

Lemma stamp_bounds_spec (s : Series) (b : option (Timestamp * Timestamp)) :
  stamp_bounds s = Ok b ->
  match b with
  | Some (lo, hi) =>
      (forall t, In (Stamp t) s -> lo <= t <= hi) /\
      In (Stamp lo) s /\ In (Stamp hi) s
  | None => forall t, ~ In (Stamp t) s
  end.
Proof.
  revert b. induction s as [|c s IH]; intros b H; simpl in H.
  - inversion H; subst. intros t [].
  - destruct (stamp_bounds s) as [b'|e]; cbn [bind] in H; [|discriminate].
    specialize (IH b' eq_refl).
    destruct c as [|d|x|t0]; try discriminate; inversion H; subst; clear H.
    + destruct b as [[lo hi]|].
      * destruct IH as (Hb & Hlo & Hhi). split; [|split].
        -- intros t [Ht|Ht]; [discriminate|]. now apply Hb.
        -- now right.
        -- now right.
      * intros t [Ht|Ht]; [discriminate|]. now apply (IH t).
    + destruct b' as [[lo hi]|].
      * destruct IH as (Hb & Hlo & Hhi). split; [|split].
        -- intros t [Ht|Ht].
           ++ inversion Ht; subst. lia.
           ++ specialize (Hb t Ht). lia.
        -- destruct (Z.min_spec t0 lo) as [[_ ->]|[_ ->]]; [now left|now right].
        -- destruct (Z.max_spec t0 hi) as [[_ ->]|[_ ->]]; [now right|now left].
      * split; [|split; now left].
        intros t [Ht|Ht]; [inversion Ht; subst; lia|]. now destruct (IH t).
Qed.

(** X6. The period the date picker is given (lines 42-45) spans the
    dataset: the two bounds are the dates of two records, and the date of
    every record lies between them; no bound is given exactly when no
    record has a date. *)
Theorem sidebar_period_spans_dataset
        (df : Frame) (b : option (Timestamp * Timestamp)) (cs ps : list Cell) :
  sidebar df = Ok (b, cs, ps) ->
  match b with
  | Some (lo, hi) =>
      (forall r t, In r (rows df) -> snd r "Date" = Stamp t -> lo <= t <= hi) /\
      (exists r, In r (rows df) /\ snd r "Date" = Stamp lo) /\
      (exists r, In r (rows df) /\ snd r "Date" = Stamp hi)
  | None => forall r t, In r (rows df) -> snd r "Date" <> Stamp t
  end.
Proof.
  unfold sidebar. intros H.
  destruct (getitem df "Date") as [d|e] eqn:G; cbn [bind] in H; [|discriminate].
  apply getitem_ok in G. destruct G as [_ ->].
  destruct (stamp_bounds _) as [b'|e] eqn:B; cbn [bind] in H; [|discriminate].
  destruct (getitem df "Country"); cbn [bind] in H; [|discriminate].
  destruct (getitem df "Product"); cbn [bind] in H; [|discriminate].
  inversion H; subst. apply stamp_bounds_spec in B.
  assert (Hin : forall t, In (Stamp t) (map (fun r : nat * Row => snd r "Date") (rows df)) <->
                          exists r, In r (rows df) /\ snd r "Date" = Stamp t).
  { intros t. rewrite in_map_iff. split; intros [r [A C]]; exists r; auto. }
  destruct b as [[lo hi]|].
  - destruct B as (Hb & Hlo & Hhi). split; [|split].
    + intros r t Hr Ht. apply Hb, Hin. eauto.
    + now apply Hin.
    + now apply Hin.
  - intros r t Hr Ht. apply (B t), Hin. eauto.
Qed.

Lemma sidebar_period_spans_dataset_witness :
  exists lo hi cs ps,
    sidebar sample_dataset = Ok (Some (lo, hi), cs, ps) /\
    (forall r t, In r (rows sample_dataset) -> snd r "Date" = Stamp t -> lo <= t <= hi) /\
    date_of lo = days_of_civil 2024 1 5 /\ date_of hi = days_of_civil 2024 2 1.
Proof.
  eexists _, _, _, _.
  assert (S : sidebar sample_dataset =
              Ok (Some (1704412800000000000, 1706745600000000000),
                  unique (column "Country" sample_dataset),
                  unique (column "Product" sample_dataset)))
    by (vm_compute; reflexivity).
  split; [exact S|].
  split; [exact (proj1 (sidebar_period_spans_dataset _ _ _ _ S))|].
  split; reflexivity.
Defined.

Lemma cell_eqb_refl (c : Cell) : cell_eqb c c = true.
Proof.
  destruct c as [|d|s|t]; simpl.
  - reflexivity.
  - apply Qeq_bool_iff. reflexivity.
  - apply String.eqb_refl.
  - apply Z.eqb_refl.
Qed.

Lemma FOP_snoc {A} (R : A -> A -> Prop) (l : list A) (c : A) :
  ForallOrdPairs R l -> Forall (fun a => R a c) l -> ForallOrdPairs R (l ++ [c]).
Proof.
  induction 1 as [|a l Ha Hl IH]; intros Hc; simpl.
  - constructor; constructor.
  - inversion Hc; subst. constructor.
    + apply Forall_app. split; [exact Ha|]. constructor; [assumption|constructor].
    + now apply IH.
Qed.

Lemma unique_acc_spec (s : Series) (seen : list Cell) :
  ForallOrdPairs (fun a b => cell_eqb b a = false) (rev seen) ->
  (forall c, In c (unique_acc s seen) -> In c seen \/ In c s) /\
  (forall c, In c seen \/ In c s -> existsb (cell_eqb c) (unique_acc s seen) = true) /\
  ForallOrdPairs (fun a b => cell_eqb b a = false) (unique_acc s seen).
Proof.
  revert seen. induction s as [|x s IH]; intros seen Hd; simpl.
  - split; [|split].
    + intros c Hc. left. now apply in_rev.
    + intros c [Hc|[]]. apply existsb_exists. exists c.
      split; [now apply in_rev in Hc|apply cell_eqb_refl].
    + exact Hd.
  - destruct (existsb (cell_eqb x) seen) eqn:E.
    + destruct (IH seen Hd) as (H1 & H2 & H3). split; [|split].
      * intros c Hc. destruct (H1 c Hc); [left|right; right]; assumption.
      * intros c [Hc|[<-|Hc]]; [apply H2; auto| |apply H2; auto].
        apply existsb_exists in E. destruct E as [y [Hy Exy]].
        specialize (H2 y (or_introl Hy)).
        apply existsb_exists in H2. destruct H2 as [z [Hz Eyz]].
        apply existsb_exists. exists z. split; [exact Hz|].
        destruct x, y, z; simpl in *; try discriminate; try reflexivity.
        -- apply Qeq_bool_iff. apply Qeq_bool_iff in Exy, Eyz. now rewrite Exy.
        -- apply String.eqb_eq in Exy, Eyz. subst. apply String.eqb_refl.
        -- apply Z.eqb_eq in Exy, Eyz. subst. apply Z.eqb_refl.
      * exact H3.
    + assert (Hd' : ForallOrdPairs (fun a b => cell_eqb b a = false) (rev (x :: seen))).
      { simpl. apply FOP_snoc; [exact Hd|].
        apply Forall_forall. intros a Ha. apply in_rev in Ha.
        destruct (cell_eqb x a) eqn:Exa; [|reflexivity].
        assert (existsb (cell_eqb x) seen = true)
          by (apply existsb_exists; eauto). congruence. }
      destruct (IH (x :: seen) Hd') as (H1 & H2 & H3). split; [|split].
      * intros c Hc. destruct (H1 c Hc) as [[<-|Hs]|Hs];
          [right; now left|now left|right; now right].
      * intros c [Hc|[<-|Hc]]; apply H2; simpl; auto.
      * exact H3.
Qed.

(** X7. The options offered by the two multiselects (lines 47-55) are the
    values of the Country, respectively Product, column: every option is a
    value of the column, every value of the column is among the options,
    and no two options are equal. *)
Theorem sidebar_options_are_the_distinct_values
        (df : Frame) (b : option (Timestamp * Timestamp)) (cs ps : list Cell) :
  sidebar df = Ok (b, cs, ps) ->
  (forall c, In c cs -> exists r, In r (rows df) /\ snd r "Country" = c) /\
  (forall r, In r (rows df) -> existsb (cell_eqb (snd r "Country")) cs = true) /\
  (forall r s, In r (rows df) -> snd r "Country" = Str s -> In (Str s) cs) /\
  ForallOrdPairs (fun a b => cell_eqb b a = false) cs /\
  (forall c, In c ps -> exists r, In r (rows df) /\ snd r "Product" = c) /\
  (forall r, In r (rows df) -> existsb (cell_eqb (snd r "Product")) ps = true) /\
  (forall r s, In r (rows df) -> snd r "Product" = Str s -> In (Str s) ps) /\
  ForallOrdPairs (fun a b => cell_eqb b a = false) ps.
Proof.
  unfold sidebar. intros H.
  destruct (getitem df "Date"); cbn [bind] in H; [|discriminate].
  destruct (stamp_bounds _); cbn [bind] in H; [|discriminate].
  destruct (getitem df "Country") as [c1|] eqn:G1; cbn [bind] in H; [|discriminate].
  destruct (getitem df "Product") as [c2|] eqn:G2; cbn [bind] in H; [|discriminate].
  apply getitem_ok in G1, G2. destruct G1 as [_ ->], G2 as [_ ->].
  inversion H; subst; clear H.
  assert (Hgen : forall col : string,
             let opts := unique (map (fun r : nat * Row => snd r col) (rows df)) in
             (forall c, In c opts -> exists r, In r (rows df) /\ snd r col = c) /\
             (forall r, In r (rows df) -> existsb (cell_eqb (snd r col)) opts = true) /\
             (forall r s, In r (rows df) -> snd r col = Str s -> In (Str s) opts) /\
             ForallOrdPairs (fun a b => cell_eqb b a = false) opts).
  { intros col opts. subst opts. unfold unique.
    destruct (unique_acc_spec (map (fun r : nat * Row => snd r col) (rows df)) [])
      as (H1 & H2 & H3); [constructor|].
    assert (Hcov : forall r, In r (rows df) ->
                     existsb (cell_eqb (snd r col))
                       (unique_acc (map (fun r : nat * Row => snd r col) (rows df)) []) = true).
    { intros r Hr. apply H2. right. apply in_map_iff. eauto. }
    split; [|split; [exact Hcov|split; [|exact H3]]].
    - intros c Hc. destruct (H1 c Hc) as [[]|Hs].
      apply in_map_iff in Hs. destruct Hs as [r [E Hr]]. eauto.
    - intros r s Hr Es. specialize (Hcov r Hr). rewrite Es in Hcov.
      apply existsb_exists in Hcov. destruct Hcov as [y [Hy E]].
      destruct y; simpl in E; try discriminate.
      apply String.eqb_eq in E. now subst. }
  destruct (Hgen "Country") as (A1 & A2 & A3 & A4).
  destruct (Hgen "Product") as (B1 & B2 & B3 & B4).
  repeat split; assumption.
Qed.

Lemma sidebar_options_are_the_distinct_values_witness :
  exists b, sidebar sample_dataset = Ok (b, [Str "US"; Str "UK"], [Str "Widget"; Str "Gadget"]) /\
            forall r s, In r (rows sample_dataset) -> snd r "Country" = Str s ->
                        In (Str s) [Str "US"; Str "UK"].
Proof.
  eexists.
  assert (S : sidebar sample_dataset =
              Ok (Some (1704412800000000000, 1706745600000000000),
                  [Str "US"; Str "UK"], [Str "Widget"; Str "Gadget"]))
    by (vm_compute; reflexivity).
  split; [exact S|].
  exact (proj1 (proj2 (proj2 (sidebar_options_are_the_distinct_values _ _ _ _ S)))).
Defined.

(** ** The filter, further *)

Lemma midnight_stamp (t : Timestamp) :
  t mod ns_per_day = 0 -> t = to_datetime_date (date_of t).
Proof.
  intros H. unfold to_datetime_date, date_of.
  pose proof (Z.div_mod t ns_per_day ltac:(discriminate)). lia.
Qed.

Lemma restrict_all (p : nat * Row -> bool) (df : Frame) :
  (forall r, In r (rows df) -> p r = true) -> restrict p df = df.
Proof.
  intros H. destruct df as [cols rs]. unfold restrict; cbn [columns rows] in *.
  now rewrite filter_all.
Qed.

Lemma restrict_ext (p q : nat * Row -> bool) (df : Frame) :
  (forall r, In r (rows df) -> p r = q r) -> restrict p df = restrict q df.
Proof.
  intros H. unfold restrict. f_equal. now apply filter_ext_in.
Qed.

(** X8. On a dataset whose dates carry no time of day, the selection the
    sidebar starts from (the period from the least to the greatest date,
    no country, no product) shows the whole dataset: the view is the
    dataset itself. *)
Theorem default_selection_shows_the_dataset
        (D : Frame) (lo hi : Timestamp) (cs ps : list Cell) :
  Dataset D ->
  Forall (fun r => is_midnight (snd r "Date") = true) (rows D) ->
  sidebar D = Ok (Some (lo, hi), cs, ps) ->
  filter_view D (default_criteria (lo, hi)) = Ok D.
Proof.
  intros HD Hmid HS. rewrite (filter_view_rows D _ HD). f_equal.
  apply restrict_all. intros r Hr.
  destruct (dataset_row D r HD Hr) as (_ & [t Et] & _).
  assert (Hb : lo <= t <= hi).
  { unfold sidebar in HS.
    destruct (getitem D "Date") as [d|] eqn:G; cbn [bind] in HS; [|discriminate].
    apply getitem_ok in G. destruct G as [_ ->].
    destruct (stamp_bounds _) as [b'|] eqn:B; cbn [bind] in HS; [|discriminate].
    destruct (getitem D "Country"); cbn [bind] in HS; [|discriminate].
    destruct (getitem D "Product"); cbn [bind] in HS; [|discriminate].
    inversion HS; subst. apply stamp_bounds_spec in B. destruct B as (B & _).
    apply B. rewrite <- Et. apply in_map_iff. exists r. auto. }
  rewrite Forall_forall in Hmid. specialize (Hmid r Hr). rewrite Et in Hmid.
  apply Z.eqb_eq in Hmid.
  unfold passes, passes_isin, default_criteria; cbn [country_filter product_filter truthy negb orb].
  rewrite !andb_true_r.
  apply (passes_date_calendar _ (snd r) t Et). cbn [start_date end_date fst snd].
  pose proof ns_per_day_pos as Hp. unfold date_of.
  split; [apply Z.div_le_mono; lia|].
  destruct (Z_lt_le_dec (t / ns_per_day) (hi / ns_per_day)) as [Hlt|Hge]; [now left|].
  right. unfold to_datetime_date.
  assert (t / ns_per_day <= hi / ns_per_day) by (apply Z.div_le_mono; lia).
  pose proof (Z.div_mod t ns_per_day ltac:(lia)).
  replace (hi / ns_per_day) with (t / ns_per_day) by lia. lia.
Qed.

Lemma default_selection_shows_the_dataset_witness :
  exists lo hi cs ps,
    sidebar sample_dataset = Ok (Some (lo, hi), cs, ps) /\
    filter_view sample_dataset (default_criteria (lo, hi)) = Ok sample_dataset.
Proof.
  eexists _, _, _, _.
  assert (S : sidebar sample_dataset =
              Ok (Some (1704412800000000000, 1706745600000000000),
                  unique (column "Country" sample_dataset),
                  unique (column "Product" sample_dataset)))
    by (vm_compute; reflexivity).
  split; [exact S|].
  eapply default_selection_shows_the_dataset;
    [exact sample_dataset_ok| |exact S].
  apply Forall_forall, forallb_forall. vm_compute. reflexivity.
Defined.

(** X9. On dates without a time of day the date test of lines 59-62 is
    the test on calendar days with both bounds included: the frame it
    returns holds the rows whose day lies between the start date and the
    end date. *)
Theorem date_filter_on_days (f : Frame) (cr : Criteria) :
  count_label "Date" f = 1%nat ->
  Forall (fun r => is_stamp (snd r "Date") = true /\
                   is_midnight (snd r "Date") = true) (rows f) ->
  date_filter f cr = Ok (restrict (within_days cr) f).
Proof.
  intros Hc Hr. rewrite date_filter_rows.
  - f_equal. apply restrict_ext. intros r Hin.
    rewrite Forall_forall in Hr. destruct (Hr r Hin) as [Hs Hm].
    unfold within_days. destruct (snd r "Date") as [|d|s|t] eqn:E; try discriminate.
    apply Z.eqb_eq in Hm. apply midnight_stamp in Hm.
    apply eq_true_iff_eq.
    rewrite (passes_date_midnight cr (snd r) (date_of t)) by (now rewrite E, <- Hm).
    rewrite andb_true_iff, !Z.leb_le. reflexivity.
  - exact Hc.
  - eapply Forall_impl; [|exact Hr]. intros r [Hs _]. exact Hs.
Qed.

Lemma date_filter_on_days_witness :
  date_filter sample_dataset january = Ok (restrict (within_days january) sample_dataset) /\
  map fst (rows (restrict (within_days january) sample_dataset)) = [0; 1]%nat.
Proof.
  split; [|reflexivity].
  apply date_filter_on_days; [reflexivity|].
  apply Forall_forall. intros r Hr.
  assert (H : forallb (fun r => is_stamp (snd r "Date") && is_midnight (snd r "Date"))%bool
                      (rows sample_dataset) = true) by (vm_compute; reflexivity).
  rewrite forallb_forall in H. specialize (H r Hr).
  apply andb_prop in H. exact H.
Defined.

(** X10. Filtering is idempotent: the selections applied once more to the
    view they gave return that view. *)
Theorem filter_view_idempotent (D V : Frame) (cr : Criteria) :
  Dataset D ->
  filter_view D cr = Ok V ->
  filter_view V cr = Ok V.
Proof.
  intros HD HV. rewrite (filter_view_rows D cr HD) in HV. inversion HV; subst.
  rewrite (filter_view_rows _ cr (Dataset_restrict (passes cr) D HD)). f_equal.
  apply restrict_all. intros r Hr. cbn [restrict rows] in Hr.
  apply filter_In in Hr. tauto.
Qed.

Lemma filter_view_idempotent_witness :
  exists V, filter_view sample_dataset us_only = Ok V /\
            filter_view V us_only = Ok V /\
            map fst (rows V) = [0; 1]%nat.
Proof.
  exists (restrict (passes us_only) sample_dataset).
  assert (H : filter_view sample_dataset us_only =
              Ok (restrict (passes us_only) sample_dataset))
    by (vm_compute; reflexivity).
  split; [exact H|]. split; [|reflexivity].
  exact (filter_view_idempotent _ _ _ sample_dataset_ok H).
Defined.

Lemma subsequence_refl {A} (l : list A) : subsequence l l.
Proof. induction l; [constructor|now apply subseq_keep]. Qed.

Lemma subsequence_trans {A} (a b c : list A) :
  subsequence a b -> subsequence b c -> subsequence a c.
Proof.
  intros Hab Hbc. revert a Hab. induction Hbc as [|x b c Hbc IH|x b c Hbc IH]; intros a Hab.
  - exact Hab.
  - constructor. now apply IH.
  - inversion Hab; subst.
    + apply subseq_skip. now apply IH.
    + apply subseq_keep. now apply IH.
Qed.

Lemma select_subsequence {A} (l : list A) (m : list bool) : subsequence (select l m) l.
Proof.
  revert m. induction l as [|x l IH]; intros m.
  - destruct m; constructor.
  - destruct m as [|b m]; simpl.
    + apply subseq_skip. clear IH. induction l; now constructor.
    + destruct b; [apply subseq_keep|apply subseq_skip]; apply IH.
Qed.

(** X11. Whatever the frame and the selections, a view the filter returns
    has the header of the frame, and its rows are rows of the frame in
    their order: the filter adds no row, changes no cell and no column. *)
Theorem filter_view_keeps_header_and_order (f V : Frame) (cr : Criteria) :
  filter_view f cr = Ok V ->
  columns V = columns f /\ subsequence (rows V) (rows f).
Proof.
  unfold filter_view. intros H.
  assert (Hdate : forall g g', date_filter g cr = Ok g' ->
                    columns g' = columns g /\ subsequence (rows g') (rows g)).
  { unfold date_filter. intros g g' Hg.
    destruct (getitem g "Date"); cbn [bind] in Hg; [|discriminate].
    destruct (mapM _ _); cbn [bind] in Hg; [|discriminate].
    destruct (mapM _ _); cbn [bind] in Hg; [|discriminate].
    inversion Hg; subst. split; [reflexivity|apply select_subsequence]. }
  assert (Hstep : forall (b : bool) (g g' : Frame) (col : string) (vs : list string),
             (if b then isin_filter g col vs else Ok g) = Ok g' ->
             columns g' = columns g /\ subsequence (rows g') (rows g)).
  { intros [|] g g' col vs Hs.
    - unfold isin_filter in Hs.
      destruct (getitem g col); cbn [bind] in Hs; [|discriminate].
      inversion Hs; subst. split; [reflexivity|apply select_subsequence].
    - inversion Hs; subst. split; [reflexivity|apply subsequence_refl]. }
  destruct (date_filter f cr) as [V1|] eqn:E1; cbn [bind] in H; [|discriminate].
  apply Hdate in E1. destruct E1 as [C1 R1].
  destruct (if truthy (country_filter cr) then _ else _) as [V2|] eqn:E2;
    cbn [bind] in H; [|discriminate].
  apply Hstep in E2. destruct E2 as [C2 R2].
  destruct (if truthy (product_filter cr) then _ else _) as [V3|] eqn:E3;
    cbn [bind] in H; [|discriminate].
  apply Hstep in E3. destruct E3 as [C3 R3].
  inversion H; subst. split; [congruence|].
  eapply subsequence_trans; [exact R3|]. eapply subsequence_trans; eassumption.
Qed.

Lemma filter_view_keeps_header_and_order_witness :
  exists V, filter_view sample_dataset us_only = Ok V /\
            columns V = columns sample_dataset /\
            subsequence (rows V) (rows sample_dataset).
Proof.
  eexists. assert (H : filter_view sample_dataset us_only =
                       Ok (restrict (passes us_only) sample_dataset))
    by (vm_compute; reflexivity).
  split; [exact H|]. exact (filter_view_keeps_header_and_order _ _ _ H).
Defined.

(** X12. The Country column is read only when a country is selected: on a
    frame without that column (and with no product selected) the filter
    returns the rows of the period when the country selection is empty, and
    raises KeyError for Country when it is not. *)
Theorem country_column_needed_only_when_selected (f V1 : Frame) (cr : Criteria) :
  date_filter f cr = Ok V1 ->
  count_label "Country" f = 0%nat ->
  product_filter cr = [] ->
  filter_view f cr =
  if truthy (country_filter cr) then Raise (KeyError "Country") else Ok V1.
Proof.
  intros Hd Hc Hp. unfold filter_view. rewrite Hd, Hp. cbn [bind truthy].
  destruct (truthy (country_filter cr)); [|reflexivity].
  unfold isin_filter. rewrite getitem_absent; [reflexivity|].
  unfold date_filter in Hd.
  destruct (getitem f "Date"); cbn [bind] in Hd; [|discriminate].
  destruct (mapM _ _); cbn [bind] in Hd; [|discriminate].
  destruct (mapM _ _); cbn [bind] in Hd; [|discriminate].
  inversion Hd; subst. exact Hc.
Qed.

Lemma country_column_needed_only_when_selected_witness :
  let f := @cleaned dmy_parser (stripped sample_no_country) in
  (exists V1, filter_view f january = Ok V1 /\ map fst (rows V1) = [0%nat]) /\
  filter_view f us_only = Raise (KeyError "Country").
Proof.
  intros f.
  assert (H1 : date_filter f january = Ok (restrict (fun r => passes_date january (snd r)) f))
    by (vm_compute; reflexivity).
  assert (H2 : date_filter f us_only = Ok (restrict (fun r => passes_date us_only (snd r)) f))
    by (vm_compute; reflexivity).
  split.
  - eexists. split.
    + exact (country_column_needed_only_when_selected f _ january H1 eq_refl eq_refl).
    + reflexivity.
  - exact (country_column_needed_only_when_selected f _ us_only H2 eq_refl eq_refl).
Defined.

(** ** Grouped sums, group by group *)




















(** ** The script and the pipeline *)





Lemma summarize_no_rows (V : Frame) :
  Dataset V -> rows V = [] ->
  summarize V = Ok (mkAggregate 0 0 0 [] [] [], with_month V).
Proof.
  intros D He.
  assert (Hreq : forall c, In c required_columns -> count_label c V = 1%nat)
    by (intros c Hc; now apply required_present).
  unfold summarize.
  rewrite !column_sum_empty by (try exact He; apply Hreq; simpl; tauto).
  cbn [bind].
  rewrite !(groupby_sum_empty V) by (try exact He; apply Hreq; simpl; tauto).
  cbn [bind]. rewrite (add_month_dataset V D). cbn [bind].
  rewrite groupby_sum_empty; [reflexivity| | |].
  - apply count_label_setitem_same, count_label_le_1, D.
  - unfold with_month. rewrite count_label_setitem_other by discriminate.
    apply Hreq; simpl; tauto.
  - rewrite with_month_rows, He. reflexivity.
Qed.

(** X16. A selection that no record satisfies is no error: the script
    returns zero for the three totals, empty tables for the three
    groupings, and an export that is the header line alone (the columns of
    the dataset and then Month), and leaves the dataset as it was. *)
Theorem empty_selection_end_to_end (cr : Criteria) (s : Store) (D : Frame) :
  frame_at s (var_df s) = Some D ->
  Dataset D ->
  ~ In "Month" (columns D) ->
  (forall r, In r (rows D) -> passes cr r = false) ->
  exists s',
    dashboard cr s =
    Ok ((mkAggregate 0 0 0 [] [] [], csv_line (columns D ++ ["Month"])), s') /\
    frame_at s' (var_df s') = Some D.
Proof.
  intros HD DD Hm Hnone.
  pose proof (filter_view_rows D cr DD) as HV.
  set (V := restrict (passes cr) D) in *.
  assert (He : rows V = []).
  { unfold V, restrict; cbn [rows].
    destruct (filter (passes cr) (rows D)) as [|x l] eqn:F; [reflexivity|].
    assert (Hx : In x (filter (passes cr) (rows D))) by (rewrite F; now left).
    apply filter_In in Hx. destruct Hx as [Hx Hp].
    rewrite (Hnone x Hx) in Hp. discriminate. }
  pose proof (summarize_no_rows V (Dataset_restrict _ D DD) He) as HS.
  destruct (dashboard_run cr s D V _ _ HD HV HS) as [extra E].
  eexists. split.
  - rewrite E. do 3 f_equal.
    unfold to_csv. rewrite with_month_rows, He. cbn [map concat].
    rewrite string_append_empty. f_equal.
    unfold with_month, setitem; cbn [columns].
    destruct (count_label "Month" V) eqn:Ec; [reflexivity|].
    exfalso. apply Hm. apply (count_label_In "Month" V). congruence.
  - unfold frame_at; cbn [heap var_df]. rewrite <- app_assoc.
    now apply nth_error_extended.
Qed.

Lemma empty_selection_end_to_end_witness :
  exists s',
    dashboard nothing_sold sample_store =
    Ok ((mkAggregate 0 0 0 [] [] [],
         csv_line (columns sample_dataset ++ ["Month"])), s') /\
    frame_at s' (var_df s') = Some sample_dataset.
Proof.
  apply (empty_selection_end_to_end nothing_sold sample_store sample_dataset eq_refl
           sample_dataset_ok).
  - simpl. intuition discriminate.
  - intros r Hr.
    assert (H : forallb (fun r => negb (passes nothing_sold r)) (rows sample_dataset) = true)
      by (vm_compute; reflexivity).
    rewrite forallb_forall in H. apply negb_true_iff. exact (H r Hr).
Defined.

(** ** The metric texts *)

Open Scope string_scope.
Open Scope Z_scope.

Lemma without_append (a : ascii) (s t : string) :
  without a (s ++ t) = without a s ++ without a t.
Proof.
  induction s as [|c s IH]; simpl; [reflexivity|].
  rewrite IH. now destruct (Ascii.eqb c a).
Qed.

Lemma without_digits (a : ascii) (n : nat) (v : Z) :
  digit_of a = None -> without a (digits_fixed n v) = digits_fixed n v.
Proof. intros Ha. apply without_absent. now apply occurs_digits. Qed.

Lemma occurs_grouped (a : ascii) (fuel : nat) (n : Z) :
  digit_of a = None -> Ascii.eqb "," a = false ->
  occurs a (group_upto fuel n) = false.
Proof.
  intros Ha Hc. revert n. induction fuel as [|f IH]; intros n; cbn [group_upto].
  - now apply occurs_digits.
  - destruct (n <? 1000); [now apply occurs_digits|].
    rewrite !occurs_append, IH, occurs_digits by exact Ha.
    cbn [occurs orb]. now rewrite Hc.
Qed.

(** Read after its commas are removed, the grouped text of [n] is a run of
    at least one digit, of value [n]. *)
Lemma group_upto_read (fuel : nat) (n : Z) :
  0 <= n ->
  exists m, (1 <= m)%nat /\
            forall rest acc k,
              read_digits (without "," (group_upto fuel n) ++ rest) acc k =
              read_digits rest (acc * 10 ^ Z.of_nat m + n) (k + m).
Proof.
  revert n. induction fuel as [|f IH]; intros n Hn.
  - cbn [group_upto]. destruct (width_pos n) as [w Hw].
    exists (width n). split; [lia|]. intros rest acc k.
    rewrite without_digits by reflexivity. rewrite read_digits_fixed.
    now rewrite (Z.mod_small n) by (split; [exact Hn|now apply width_bound]).
  - cbn [group_upto]. destruct (Z.ltb_spec n 1000) as [Hlt|Hge].
    + destruct (width_pos n) as [w Hw].
      exists (width n). split; [lia|]. intros rest acc k.
      rewrite without_digits by reflexivity. rewrite read_digits_fixed.
      now rewrite (Z.mod_small n) by (split; [exact Hn|now apply width_bound]).
    + destruct (IH (n / 1000)) as (m & Hm & Hread); [apply Z.div_pos; lia|].
      exists (m + 3)%nat. split; [lia|]. intros rest acc k.
      rewrite !without_append. cbn [without Ascii.eqb Bool.eqb append].
      change (without "," "") with "". cbn [append].
      rewrite without_digits by reflexivity.
      rewrite string_append_assoc, Hread, read_digits_fixed.
      f_equal; [|lia].
      rewrite (Z.mod_small (n mod 1000)) by (apply Z.mod_pos_bound; lia).
      rewrite Nat2Z.inj_add, Z.pow_add_r by lia.
      change (10 ^ Z.of_nat 3) with 1000.
      pose proof (Z.div_mod n 1000 ltac:(lia)). lia.
Qed.

Lemma grouped_reads_back (neg : bool) (n : Z) :
  0 <= n ->
  to_numeric_str ((if neg then "-" else "") ++ without "," (group_thousands n)) =
  Some (mkDec (signed neg n) 0).
Proof.
  intros Hn. unfold group_thousands.
  destruct (group_upto_read (width n) n Hn) as (m & Hm & Hread).
  remember (without "," (group_upto (width n) n)) as body eqn:Eb.
  assert (Hbody : read_digits body 0 0 = (n, m, "")).
  { rewrite <- (string_append_empty body), Hread. cbn [read_digits].
    now rewrite Z.mul_0_l, Z.add_0_l. }
  assert (Hp : parse_unsigned neg body = Some (mkDec (signed neg n) 0)).
  { unfold parse_unsigned. rewrite Hbody.
    destruct m; [lia|reflexivity]. }
  unfold to_numeric_str. destruct neg.
  - change ("-" ++ body) with (String "-" body). cbn [split_sign]. exact Hp.
  - change ("" ++ body) with body.
    destruct body as [|c r].
    + exfalso. cbn [read_digits] in Hbody.
      assert (m = 0%nat) by congruence. lia.
    + cbn [read_digits] in Hbody.
      destruct (digit_of c) as [x|] eqn:Ed.
      * rewrite (split_sign_digit c r x Ed). exact Hp.
      * exfalso. assert (m = 0%nat) by congruence. lia.
Qed.

Lemma clean_grouped (sign : string) (n : Z) :
  sign = "-" \/ sign = "" ->
  clean_currency ("$" ++ sign ++ group_thousands n) =
  sign ++ without "," (group_thousands n).
Proof.
  intros Hs. rewrite clean_currency_without.
  change ("$" ++ sign ++ group_thousands n) with (String "$" (sign ++ group_thousands n)).
  change (without "$" (String "$" (sign ++ group_thousands n)))
    with (without "$" (sign ++ group_thousands n)).
  rewrite (without_absent "$").
  - rewrite without_append. now destruct Hs as [-> | ->].
  - rewrite occurs_append. unfold group_thousands.
    rewrite occurs_grouped by reflexivity. now destruct Hs as [-> | ->].
Qed.

Lemma round_half_even_sign (q : Q) :
  (Qnum q < 0 -> round_half_even q <= 0) /\ (0 <= Qnum q -> 0 <= round_half_even q).
Proof.
  unfold round_half_even. destruct q as [n d]; cbn [Qnum Qden].
  pose proof (Z.div_mod n (Zpos d) ltac:(lia)) as Hdm.
  pose proof (Z.mod_pos_bound n (Zpos d) ltac:(lia)) as Hm.
  set (f := n / Zpos d) in *. set (r := n mod Zpos d) in *.
  assert (Hf : n < 0 -> f <= -1) by (intros; nia).
  assert (Hf' : 0 <= n -> 0 <= f) by (intros; nia).
  destruct (Z.ltb_spec (2 * r) (Zpos d)); [split; intros; lia|].
  destruct (Z.ltb_spec (Zpos d) (2 * r)); [split; intros; lia|].
  destruct (Z.even f); split; intros; lia.
Qed.

Lemma round_half_even_error (q : Q) :
  (Qabs (q - inject_Z (round_half_even q)) <= 1 # 2)%Q.
Proof.
  apply Qabs_Qle_condition.
  unfold round_half_even. destruct q as [n d]; cbn [Qnum Qden].
  pose proof (Z.div_mod n (Zpos d) ltac:(lia)) as Hdm.
  pose proof (Z.mod_pos_bound n (Zpos d) ltac:(lia)) as Hm.
  set (f := n / Zpos d) in *. set (r := n mod Zpos d) in *.
  assert (Hz : forall z, (2 * Z.abs (n - z * Zpos d) <= Zpos d) ->
                         (- (1 # 2) <= (n # d) - inject_Z z <= 1 # 2)%Q).
  { intros z Hz. unfold Qle, Qminus, Qplus, Qopp, inject_Z; cbn [Qnum Qden].
    rewrite !Pos2Z.inj_mul. split; nia. }
  apply Hz.
  destruct (Z.ltb_spec (2 * r) (Zpos d)); [nia|].
  destruct (Z.ltb_spec (Zpos d) (2 * r)); [nia|].
  destruct (Z.even f); nia.
Qed.

(** X17. The revenue metrics of lines 79-80 show the total rounded to the
    nearest integer (never off by more than one half), written with '$'
    and thousands separators: cleaned and read by the loader's own rule for
    currency texts, the text gives that integer back. *)
Theorem revenue_metric_reads_back (x : Q) :
  currency_value (Str ("$" ++ format_rounded x)) = Some (mkDec (round_half_even x) 0) /\
  (Qabs (x - inject_Z (round_half_even x)) <= 1 # 2)%Q.
Proof.
  split; [|apply round_half_even_error].
  unfold currency_value, astype_str, format_rounded.
  destruct (round_half_even_sign x) as [Hneg Hpos].
  destruct (Z.ltb_spec (Qnum x) 0) as [Hlt|Hge].
  - rewrite clean_grouped by (now left).
    rewrite (grouped_reads_back true) by apply Z.abs_nonneg.
    unfold signed. do 2 f_equal. specialize (Hneg Hlt). lia.
  - rewrite clean_grouped by (now right).
    rewrite (grouped_reads_back false) by apply Z.abs_nonneg.
    unfold signed. do 2 f_equal. specialize (Hpos Hge). lia.
Qed.

Lemma int_of_truncates (x : Q) :
  Z.abs (int_of x) * Zpos (Qden x) <= Z.abs (Qnum x) <
  (Z.abs (int_of x) + 1) * Zpos (Qden x).
Proof.
  unfold int_of. destruct x as [n d]; cbn [Qnum Qden].
  pose proof (Z.quot_abs n (Zpos d) ltac:(lia)) as Ha.
  change (Z.abs (Zpos d)) with (Zpos d) in Ha. rewrite <- Ha.
  pose proof (Z.quot_rem' (Z.abs n) (Zpos d)) as Hq.
  pose proof (Z.rem_bound_pos (Z.abs n) (Zpos d) (Z.abs_nonneg n) ltac:(lia)) as Hr.
  nia.
Qed.

(** X18. The units metric of line 81 shows the whole part of the total
    (the total cut toward zero), written with thousands separators: read
    back without its separators the text gives that integer, which differs
    from the total by less than one. *)
Theorem units_metric_reads_back (x : Q) :
  to_numeric_str (without "," (format_int (int_of x))) = Some (mkDec (int_of x) 0) /\
  Z.abs (int_of x) * Zpos (Qden x) <= Z.abs (Qnum x) <
  (Z.abs (int_of x) + 1) * Zpos (Qden x).
Proof.
  split; [|apply int_of_truncates].
  unfold format_int. rewrite without_append.
  destruct (Z.ltb_spec (int_of x) 0) as [Hlt|Hge].
  - change (without "," "-") with "-".
    rewrite (grouped_reads_back true) by apply Z.abs_nonneg.
    unfold signed. do 2 f_equal. lia.
  - change (without "," "") with "".
    rewrite (grouped_reads_back false) by apply Z.abs_nonneg.
    unfold signed. do 2 f_equal. lia.
Qed.

Example metric_texts_us_only :
  exists V a V',
    filter_view sample_dataset us_only = Ok V /\
    summarize V = Ok (a, V') /\
    metric_texts a = ("$150", "$130", "15").
Proof.
  eexists _, _, _. split; [vm_compute; reflexivity|].
  split; [vm_compute; reflexivity|]. vm_compute. reflexivity.
Qed.

Open Scope list_scope.

(** ** From the table to the dataset *)



(** X20. [dropna] looks at every column: a row of the table with a missing
    cell in any column of the header, one the loader does not touch
    included, is absent from the frame [load_data] returns. *)
Theorem row_with_missing_cell_is_dropped `{P : DatetimeParser}
        (raw ds : Frame) (i : nat) (r : Row) (k : string) :
  NoDup (map fst (rows raw)) ->
  load_data raw = Ok ds ->
  In (i, r) (rows (stripped raw)) ->
  In k (columns ds) ->
  r k = NaN ->
  ~ In i (map fst (rows ds)).
Proof.
  intros Hnd H Hin Hk Hna Hi. rewrite <- stripped_labels in Hnd.
  apply in_map_iff in Hi. destruct Hi as [[j r'] [Ej Hr']]. simpl in Ej. subst j.
  destruct (loaded_row_origin raw ds i r' H Hr') as (r0 & Hr0 & _ & Hcur & Hd & Ho).
  rewrite <- (NoDup_label_unique _ i r r0 Hnd Hin Hr0) in Hcur, Hd, Ho.
  destruct (in_dec string_dec k loader_columns) as [Hl|Hl].
  - apply loader_columns_split in Hl. destruct Hl as [Hc| ->].
    + apply (Hcur k Hc). rewrite Hna. reflexivity.
    + apply Hd. rewrite Hna. reflexivity.
  - exact (Ho k Hk Hl Hna).
Qed.

Lemma row_with_missing_cell_is_dropped_witness :
  let raw := {| columns := sample_header;
                rows := [(0%nat, row_of [(" Date", Str "05/01/2024");
                                         ("Product", Str "Widget");
                                         ("Units_Sold", Num (mkDec 1 0));
                                         ("Unit_Price ", Str "$1");
                                         ("Total_Sale", Str "$1");
                                         ("Sales_After_Discount", Str "$1")])] |} in
  exists ds, @load_data dmy_parser raw = Ok ds /\ ~ In 0%nat (map fst (rows ds)).
Proof.
  intros raw.
  assert (L : @load_data dmy_parser raw = Ok (@cleaned dmy_parser (stripped raw)))
    by (vm_compute; reflexivity).
  eexists. split; [exact L|].
  eapply (@row_with_missing_cell_is_dropped dmy_parser raw _ 0%nat _ "Country").
  - apply (nodupb_sound Nat.eqb); [apply Nat.eqb_eq|reflexivity].
  - exact L.
  - left. reflexivity.
  - vm_compute. tauto.
  - reflexivity.
Defined.
